(** * The App component of the screenshot-to-code client

    A shallow embedding of [App] (the single-page React component that owns
    the generated code, the version history and the generation life cycle)
    together with the declarations of [types.ts] it uses.

    React state is modelled as a store record; every handler is a function
    of the values its closure captured at render time (the "render
    snapshot") into a computation on the store that is current when it
    runs.  Asynchronous functions are trees whose [await] points are
    explicit, with two semantics: run-to-completion ([exec]) and an
    interleaved event loop ([step]). *)

From Stdlib Require Import String List ZArith Lia Bool.
Import ListNotations.
Open Scope string_scope.
Open Scope list_scope.
Open Scope Z_scope.

Set Implicit Arguments.

(** ** JavaScript values *)

(** [arr[i]] for an integral [i]: [undefined] (here [None]) outside the
    array. *)
Definition arr_get {A : Type} (arr : list A) (i : Z) : option A :=
  if i <? 0 then None else nth_error arr (Z.to_nat i).

(** [arr.length] as a JavaScript number. *)
Definition arr_length {A : Type} (arr : list A) : Z := Z.of_nat (length arr).

(** What a call either hands back or throws; for an async function, how
    its promise settles. *)
Inductive Result (A : Type) : Type :=
| Returned (a : A)
| Threw (e : string).
Arguments Threw {A} e.

(** ** types.ts *)
Module types.

Inductive EditorTheme := ESPRESSO | COBALT.

Inductive AppState := INITIAL | CODING | CODE_READY.

Inductive GenerationType := create | update.

(** Optional members ([?:]) are options; [image] is an option as well
    because [doUpdate] fills it with [referenceImages[0]], which is
    [undefined] on an empty array. *)
Record CodeGenerationParams := {
  generationType : GenerationType;
  image : option string;
  resultImage : option string;
  history : option (list string);
  isImportedFromCode : option bool;
  authToken : option string
}.

Section WithStack.
Variable Stack : Type.

Record Settings := {
  openAiApiKey : option string;
  openAiBaseURL : option string;
  screenshotOneApiKey : option string;
  isImageGenerationEnabled : bool;
  editorTheme : EditorTheme;
  generatedCodeConfig : Stack;
  isTermOfServiceAccepted : bool;
  accessCode : option string
}.

(** [CodeGenerationParams & Settings]: the two key sets are disjoint,
    so the intersection is kept as a pair of records. *)
Record FullGenerationSettings := {
  params : CodeGenerationParams;
  settings_of : Settings
}.
End WithStack.

End types.
Import types.

(** ** components/history/history_types *)
Module history_types.

(** Modelled from the spec: the declaration of [History] is missing from
    the sources.  The spec calls it a shallow edit-history array whose
    entries form a tree of edits; the shape of an entry is that of the
    three object literals which [App] stores in [appHistory]. *)
Inductive HistoryItemType := ai_create | ai_edit | code_create.

Inductive HistoryInputs :=
| AiCreateInputs (image_url : option string)
| AiEditInputs (prompt : string)
| CodeCreateInputs (code : string).

Record HistoryItem := {
  type : HistoryItemType;
  parentIndex : option Z;
  code : string;
  inputs : HistoryInputs
}.

Definition History := list HistoryItem.

End history_types.
Import history_types.

(** ** Browser objects *)
Module dom.

(** DOM nodes, canvases and sockets are handles. *)
Inductive Element := NodeRef (id : nat).
Inductive HTMLCanvasElement := CanvasRef (id : nat).
Inductive WebSocket := SocketRef (id : nat).

Record Document := { body : option Element }.
Record Window := { document : Document }.
Record HTMLIFrameElement := { contentWindow : option Window }.

Record Blob := { blobParts : list string; blob_type : string }.

(** The URL [URL.createObjectURL] hands out for a blob. *)
Inductive ObjectURL := BlobURL (b : Blob).

Record HTMLAnchorElement := { href : ObjectURL; download : string }.

End dom.
Import dom.

(** ** Sample instances

    Arbitrary instances of the declarations that [App] imports, used only
    to exhibit inputs on which the hypotheses of the theorems below hold;
    they are not models of the imported code. *)

Definition sample_extractHistoryTree (h : History) (version : Z)
    : option (list string) :=
  match arr_get h version with
  | Some it => Some [code it]
  | None => None
  end.

Definition sample_html2canvas (el : Element) : Result HTMLCanvasElement :=
  match el with
  | NodeRef id => Returned (CanvasRef id)
  end.

Definition sample_toDataURL (canvas : HTMLCanvasElement) (mime : string) : string :=
  String.append "data:" (String.append mime ";base64,").

(** ** components/hosted/AppContainer.tsx *)
Module AppContainer.

(** Modelled from the spec: the declaration of [UserResponse] is missing
    from the sources; [subscriber_tier] is the one member that
    [AppContainer] reads, absent or a string. *)
Record UserResponse := { subscriber_tier : option string }.

(** [!x] for an optional string: [undefined] and the empty string are
    falsy. *)
Definition falsy (x : option string) : bool :=
  match x with
  | None => true
  | Some t => String.eqb t ""
  end.

(** The cells the component writes: its [showPopup] state, the
    [isInitRequestInProgress] ref and the [subscriberTier] of the store;
    [sent] counts the POSTs to /users/create and [inFlight] those of them
    that have not settled. *)
Record St := {
  showPopup : bool;
  isInitRequestInProgress : bool;
  subscriberTier : string;
  sent : nat;
  inFlight : nat
}.

Definition mount (tier : string) : St :=
  {| showPopup := false; isInitRequestInProgress := false;
     subscriberTier := tier; sent := 0; inFlight := 0 |}.

(** The first effect: [isSignedIn] is [undefined] until Clerk has loaded. *)
Definition popupEffect (isSignedIn : option bool) (isLoaded : bool) (st : St) : St :=
  if isLoaded && negb (match isSignedIn with Some b => b | None => false end)
  then {| showPopup := true;
          isInitRequestInProgress := isInitRequestInProgress st;
          subscriberTier := subscriberTier st;
          sent := sent st; inFlight := inFlight st |}
  else st.

(** [init] up to its [await authenticatedFetch(...)]. *)
Definition init (st : St) : St :=
  if isInitRequestInProgress st then st
  else {| showPopup := showPopup st;
          isInitRequestInProgress := true;
          subscriberTier := subscriberTier st;
          sent := S (sent st); inFlight := S (inFlight st) |}.

(** [init] after the fetch resolved with [user]. *)
Definition init_resolved (user : UserResponse) (st : St) : St :=
  {| showPopup := showPopup st;
     isInitRequestInProgress := false;
     subscriberTier :=
       if falsy (subscriber_tier user) then "free"
       else match subscriber_tier user with
            | Some t => t
            | None => "free"
            end;
     sent := sent st; inFlight := pred (inFlight st) |}.

(** The fetch rejected: [init] ends at the [await], nothing catches. *)
Definition init_rejected (st : St) : St :=
  {| showPopup := showPopup st;
     isInitRequestInProgress := isInitRequestInProgress st;
     subscriberTier := subscriberTier st;
     sent := sent st; inFlight := pred (inFlight st) |}.

Inductive Event :=
| AuthChanged (isSignedIn : option bool) (isLoaded : bool)
| RunInit
| FetchResolved (user : UserResponse)
| FetchRejected.

(** One turn of the loop; a fetch can only settle while one is in
    flight. *)
Definition step (ev : Event) (st : St) : option St :=
  match ev with
  | AuthChanged isSignedIn isLoaded => Some (popupEffect isSignedIn isLoaded st)
  | RunInit => Some (init st)
  | FetchResolved user =>
      match inFlight st with
      | O => None
      | S _ => Some (init_resolved user st)
      end
  | FetchRejected =>
      match inFlight st with
      | O => None
      | S _ => Some (init_rejected st)
      end
  end.

Fixpoint steps (evs : list Event) (st : St) : option St :=
  match evs with
  | [] => Some st
  | ev :: evs' =>
      match step ev st with
      | Some st' => steps evs' st'
      | None => None
      end
  end.

(** Whether some run of the popup effect saw Clerk loaded and nobody
    signed in. *)
Fixpoint saw_signed_out (evs : list Event) : bool :=
  match evs with
  | [] => false
  | AuthChanged isSignedIn isLoaded :: evs' =>
      (isLoaded && negb (match isSignedIn with Some b => b | None => false end))
      || saw_signed_out evs'
  | _ :: evs' => saw_signed_out evs'
  end.

End AppContainer.

Section App.

(** Declarations of the repository that [App] imports and that are not
    among the sources. *)
Variable Stack : Type.                         (* lib/stacks *)
Variable HTML_TAILWIND : Stack.                (* Stack.HTML_TAILWIND *)
Variable USER_CLOSE_WEB_SOCKET_CODE : Z.       (* constants *)
Variable extractHistoryTree :                  (* components/history/utils; *)
  History -> Z -> option (list string).        (* [None]: it threw *)

(** The html2canvas library and [canvas.toDataURL]. *)
Variable html2canvas : Element -> Result HTMLCanvasElement.
Variable toDataURL : HTMLCanvasElement -> string -> string.

(** ** Component state *)

(** One field per [useState] / [usePersistedState] cell, plus the
    mutable [wsRef.current]. *)
Record AppSt := {
  appState : AppState;
  generatedCode : string;
  referenceImages : list string;
  executionConsole : list string;
  updateInstruction : string;
  isImportedFromCode : bool;
  settings : Settings Stack;
  appHistory : History;
  currentVersion : option Z;
  shouldIncludeResultImage : bool;
  wsRef : option WebSocket
}.

(** The values of the first render.  (The effect that repairs a falsy
    [settings.generatedCodeConfig] read from local storage never fires on
    a value of type [Stack].) *)
Definition initialState : AppSt := {|
  appState := INITIAL;
  generatedCode := "";
  referenceImages := [];
  executionConsole := [];
  updateInstruction := "";
  isImportedFromCode := false;
  settings := {|
    openAiApiKey := None;
    openAiBaseURL := None;
    screenshotOneApiKey := None;
    isImageGenerationEnabled := true;
    editorTheme := COBALT;
    generatedCodeConfig := HTML_TAILWIND;
    isTermOfServiceAccepted := true;
    accessCode := None
  |};
  appHistory := [];
  currentVersion := None;
  shouldIncludeResultImage := false;
  wsRef := None
|}.

(** What the callbacks handed to [generateCode] close over: the render
    snapshot in which [doGenerateCode] was created and its two
    arguments; [request] is the merged [updatedParams]. *)
Record Generation := {
  render : AppSt;
  gen_params : CodeGenerationParams;
  parentVersion : option Z;
  request : FullGenerationSettings Stack
}.

(** Everything a handler does besides writing state. *)
Inductive Effect :=
| ToastError (msg : string)
| AddEvent (name : string)
| WsClose (ws : WebSocket) (code : Z)
| HistoryRead (len : Z) (index : Z)            (* appHistory[index] *)
| CreateObjectURL (b : Blob)
| AppendChild (a : HTMLAnchorElement)
| Click (a : HTMLAnchorElement)
| RemoveChild (a : HTMLAnchorElement)
| RevokeObjectURL (u : ObjectURL)
| GenerateCode (g : Generation).



(** ** Handlers as computations on the store *)

(** A synchronous piece of handler code: it runs on the current store,
    may write state, emits effects in order, and returns or throws.  A
    throw keeps the writes and effects made before it. *)
Definition M (A : Type) : Type := AppSt -> Result A * AppSt * list Effect.

Definition ret {A : Type} (a : A) : M A := fun s => (Returned a, s, []).

Definition bind {A B : Type} (m : M A) (f : A -> M B) : M B :=
  fun s =>
    match m s with
    | (Returned a, s1, e1) =>
        match f a s1 with
        | (r, s2, e2) => (r, s2, e1 ++ e2)
        end
    | (Threw e, s1, e1) => (Threw e, s1, e1)
    end.

Definition throw {A : Type} (e : string) : M A := fun s => (Threw e, s, []).

Definition emit (e : Effect) : M unit := fun s => (Returned tt, s, [e]).

Definition modify (f : AppSt -> AppSt) : M unit := fun s => (Returned tt, f s, []).

Definition gets {A : Type} (f : AppSt -> A) : M A := fun s => (Returned (f s), s, []).

Notation "x <- m ;; k" := (bind m (fun x => k))
  (at level 61, m at next level, right associativity).
Notation "m ;; k" := (bind m (fun _ => k))
  (at level 61, right associativity).

(** The state store after the effects of a computation. *)
Definition store_of {A : Type} (x : Result A * AppSt * list Effect) : AppSt :=
  snd (fst x).
Definition effects_of {A : Type} (x : Result A * AppSt * list Effect) : list Effect :=
  snd x.
Definition result_of {A : Type} (x : Result A * AppSt * list Effect) : Result A :=
  fst (fst x).

(** *** The state setters, with a value and with an updater function *)

Definition setAppStateWith (f : AppState -> AppState) : M unit :=
  modify (fun s => {|
    appState := f (appState s); generatedCode := generatedCode s;
    referenceImages := referenceImages s; executionConsole := executionConsole s;
    updateInstruction := updateInstruction s; isImportedFromCode := isImportedFromCode s;
    settings := settings s; appHistory := appHistory s;
    currentVersion := currentVersion s;
    shouldIncludeResultImage := shouldIncludeResultImage s; wsRef := wsRef s |}).

Definition setGeneratedCodeWith (f : string -> string) : M unit :=
  modify (fun s => {|
    appState := appState s; generatedCode := f (generatedCode s);
    referenceImages := referenceImages s; executionConsole := executionConsole s;
    updateInstruction := updateInstruction s; isImportedFromCode := isImportedFromCode s;
    settings := settings s; appHistory := appHistory s;
    currentVersion := currentVersion s;
    shouldIncludeResultImage := shouldIncludeResultImage s; wsRef := wsRef s |}).

Definition setReferenceImagesWith (f : list string -> list string) : M unit :=
  modify (fun s => {|
    appState := appState s; generatedCode := generatedCode s;
    referenceImages := f (referenceImages s); executionConsole := executionConsole s;
    updateInstruction := updateInstruction s; isImportedFromCode := isImportedFromCode s;
    settings := settings s; appHistory := appHistory s;
    currentVersion := currentVersion s;
    shouldIncludeResultImage := shouldIncludeResultImage s; wsRef := wsRef s |}).

Definition setExecutionConsoleWith (f : list string -> list string) : M unit :=
  modify (fun s => {|
    appState := appState s; generatedCode := generatedCode s;
    referenceImages := referenceImages s; executionConsole := f (executionConsole s);
    updateInstruction := updateInstruction s; isImportedFromCode := isImportedFromCode s;
    settings := settings s; appHistory := appHistory s;
    currentVersion := currentVersion s;
    shouldIncludeResultImage := shouldIncludeResultImage s; wsRef := wsRef s |}).

Definition setUpdateInstructionWith (f : string -> string) : M unit :=
  modify (fun s => {|
    appState := appState s; generatedCode := generatedCode s;
    referenceImages := referenceImages s; executionConsole := executionConsole s;
    updateInstruction := f (updateInstruction s); isImportedFromCode := isImportedFromCode s;
    settings := settings s; appHistory := appHistory s;
    currentVersion := currentVersion s;
    shouldIncludeResultImage := shouldIncludeResultImage s; wsRef := wsRef s |}).

Definition setIsImportedFromCodeWith (f : bool -> bool) : M unit :=
  modify (fun s => {|
    appState := appState s; generatedCode := generatedCode s;
    referenceImages := referenceImages s; executionConsole := executionConsole s;
    updateInstruction := updateInstruction s; isImportedFromCode := f (isImportedFromCode s);
    settings := settings s; appHistory := appHistory s;
    currentVersion := currentVersion s;
    shouldIncludeResultImage := shouldIncludeResultImage s; wsRef := wsRef s |}).

Definition setSettingsWith (f : Settings Stack -> Settings Stack) : M unit :=
  modify (fun s => {|
    appState := appState s; generatedCode := generatedCode s;
    referenceImages := referenceImages s; executionConsole := executionConsole s;
    updateInstruction := updateInstruction s; isImportedFromCode := isImportedFromCode s;
    settings := f (settings s); appHistory := appHistory s;
    currentVersion := currentVersion s;
    shouldIncludeResultImage := shouldIncludeResultImage s; wsRef := wsRef s |}).

Definition setAppHistoryWith (f : History -> History) : M unit :=
  modify (fun s => {|
    appState := appState s; generatedCode := generatedCode s;
    referenceImages := referenceImages s; executionConsole := executionConsole s;
    updateInstruction := updateInstruction s; isImportedFromCode := isImportedFromCode s;
    settings := settings s; appHistory := f (appHistory s);
    currentVersion := currentVersion s;
    shouldIncludeResultImage := shouldIncludeResultImage s; wsRef := wsRef s |}).

Definition setCurrentVersionWith (f : option Z -> option Z) : M unit :=
  modify (fun s => {|
    appState := appState s; generatedCode := generatedCode s;
    referenceImages := referenceImages s; executionConsole := executionConsole s;
    updateInstruction := updateInstruction s; isImportedFromCode := isImportedFromCode s;
    settings := settings s; appHistory := appHistory s;
    currentVersion := f (currentVersion s);
    shouldIncludeResultImage := shouldIncludeResultImage s; wsRef := wsRef s |}).

Definition setShouldIncludeResultImageWith (f : bool -> bool) : M unit :=
  modify (fun s => {|
    appState := appState s; generatedCode := generatedCode s;
    referenceImages := referenceImages s; executionConsole := executionConsole s;
    updateInstruction := updateInstruction s; isImportedFromCode := isImportedFromCode s;
    settings := settings s; appHistory := appHistory s;
    currentVersion := currentVersion s;
    shouldIncludeResultImage := f (shouldIncludeResultImage s); wsRef := wsRef s |}).

(** Assignment to [wsRef.current]. *)
Definition assignWsRef (ws : option WebSocket) : M unit :=
  modify (fun s => {|
    appState := appState s; generatedCode := generatedCode s;
    referenceImages := referenceImages s; executionConsole := executionConsole s;
    updateInstruction := updateInstruction s; isImportedFromCode := isImportedFromCode s;
    settings := settings s; appHistory := appHistory s;
    currentVersion := currentVersion s;
    shouldIncludeResultImage := shouldIncludeResultImage s; wsRef := ws |}).

Definition setAppState (v : AppState) : M unit := setAppStateWith (fun _ => v).
Definition setGeneratedCode (v : string) : M unit := setGeneratedCodeWith (fun _ => v).
Definition setReferenceImages (v : list string) : M unit := setReferenceImagesWith (fun _ => v).
Definition setExecutionConsole (v : list string) : M unit := setExecutionConsoleWith (fun _ => v).
Definition setUpdateInstruction (v : string) : M unit := setUpdateInstructionWith (fun _ => v).
Definition setIsImportedFromCode (v : bool) : M unit := setIsImportedFromCodeWith (fun _ => v).
Definition setSettings (v : Settings Stack) : M unit := setSettingsWith (fun _ => v).
Definition setAppHistory (v : History) : M unit := setAppHistoryWith (fun _ => v).
Definition setCurrentVersion (v : option Z) : M unit := setCurrentVersionWith (fun _ => v).
Definition setShouldIncludeResultImage (v : bool) : M unit :=
  setShouldIncludeResultImageWith (fun _ => v).

(** [toast.error] and [addEvent]. *)
Definition toast_error (msg : string) : M unit := emit (ToastError msg).
Definition addEvent (name : string) : M unit := emit (AddEvent name).

(** [appHistory[index]], recorded as a read of the array that the
    closure holds. *)
Definition readHistory (h : History) (index : Z) : M (option HistoryItem) :=
  emit (HistoryRead (arr_length h) index) ;;
  ret (arr_get h index).

(** ** Asynchronous functions *)

(** The body of an [async] function: synchronous pieces separated by the
    two awaited promises that really suspend ([getToken()] and
    [html2canvas(...)]) and by the call of [generateCode], which registers
    the callbacks of a [Generation]. *)
Inductive Async (A : Type) : Type :=
| Return (a : A)
| Reject (e : string)
| Sync (m : M unit) (k : Async A)
| AwaitGetToken (k : option string -> Async A)
| AwaitHtml2canvas (el : Element) (k : HTMLCanvasElement -> Async A)
| CallGenerateCode (g : Generation) (k : Async A).
Arguments Reject {A} e.
Arguments Sync {A} m k.
Arguments AwaitGetToken {A} k.
Arguments AwaitHtml2canvas {A} el k.
Arguments CallGenerateCode {A} g k.

(** [const x = await p; k x]. *)
Fixpoint await {A B : Type} (p : Async A) (k : A -> Async B) : Async B :=
  match p with
  | Return a => k a
  | Reject e => Reject e
  | Sync m p' => Sync m (await p' k)
  | AwaitGetToken f => AwaitGetToken (fun t => await (f t) k)
  | AwaitHtml2canvas el f => AwaitHtml2canvas el (fun c => await (f c) k)
  | CallGenerateCode g p' => CallGenerateCode g (await p' k)
  end.

(** ** The functions of [App] *)

Definition takeScreenshot (iframeElement : option HTMLIFrameElement) : Async string :=
  match iframeElement with
  | None => Return ""
  | Some iframe =>
      match contentWindow iframe with
      | None => Return ""
      | Some w =>
          match body (document w) with
          | None => Return ""
          | Some b =>
              AwaitHtml2canvas b (fun canvas =>
                let png := toDataURL canvas "image/png" in
                Return png)
          end
      end
  end.

Definition downloadCode (r : AppSt) : M unit :=
  addEvent "Download" ;;
  let blob := {| blobParts := [generatedCode r]; blob_type := "text/html" |} in
  emit (CreateObjectURL blob) ;;
  let url := BlobURL blob in
  let a := {| href := url; download := "index.html" |} in
  emit (AppendChild a) ;;
  emit (Click a) ;;
  emit (RemoveChild a) ;;
  emit (RevokeObjectURL url).

Definition reset : M unit :=
  setAppState INITIAL ;;
  setGeneratedCode "" ;;
  setReferenceImages [] ;;
  setExecutionConsole [] ;;
  setUpdateInstruction "" ;;
  setIsImportedFromCode false ;;
  setAppHistory [] ;;
  setCurrentVersion None ;;
  setShouldIncludeResultImage false.

(** [appHistory[currentVersion].code] throws a TypeError when the entry
    is [undefined]. *)
Definition cancelCodeGenerationAndReset (r : AppSt) : M unit :=
  match currentVersion r with
  | None => reset
  | Some v =>
      item <- readHistory (appHistory r) v ;;
      match item with
      | Some it =>
          setGeneratedCode (code it) ;;
          setAppState CODE_READY
      | None => throw "TypeError"
      end
  end.

Definition cancelCodeGeneration (r : AppSt) : M unit :=
  ws <- gets wsRef ;;
  match ws with
  | Some w => emit (WsClose w USER_CLOSE_WEB_SOCKET_CODE)
  | None => ret tt
  end ;;
  cancelCodeGenerationAndReset r.

(** [authToken || undefined]. *)
Definition or_undefined (authToken : option string) : option string :=
  match authToken with
  | Some t => if String.eqb t "" then None else Some t
  | None => None
  end.

(** [{ ...params, ...settings, authToken: authToken || undefined }]. *)
Definition merge_params (p : CodeGenerationParams) (st : Settings Stack)
    (tok : option string) : FullGenerationSettings Stack :=
  {| params := {| generationType := generationType p;
                  image := image p;
                  resultImage := resultImage p;
                  history := history p;
                  types.isImportedFromCode := types.isImportedFromCode p;
                  authToken := or_undefined tok |};
     settings_of := st |}.

(** The five callbacks [doGenerateCode] hands to [generateCode]. *)

Definition onChange (token : string) : M unit :=
  setGeneratedCodeWith (fun prev => String.append prev token).

Definition onSetCode (g : Generation) (code : string) : M unit :=
  setGeneratedCode code ;;
  match generationType (gen_params g) with
  | create =>
      setAppHistory
        [ {| type := ai_create;
             parentIndex := None;
             history_types.code := code;
             inputs := AiCreateInputs (arr_get (referenceImages (render g)) 0) |} ] ;;
      setCurrentVersion (Some 0)
  | update =>
      prev <- gets appHistory ;;
      match parentVersion g with
      | None =>
          toast_error "No parent version set. Contact support or open a Github issue." ;;
          addEvent "ParentVersionNull" ;;
          setAppHistory prev
      | Some pv =>
          let newHistory :=
            prev ++ [ {| type := ai_edit;
                         parentIndex := Some pv;
                         history_types.code := code;
                         inputs := AiEditInputs (updateInstruction (render g)) |} ] in
          setCurrentVersion (Some (arr_length newHistory - 1)) ;;
          setAppHistory newHistory
      end
  end.

Definition onStatusUpdate (line : string) : M unit :=
  setExecutionConsoleWith (fun prev => prev ++ [line]).

Definition onCancel (g : Generation) : M unit :=
  cancelCodeGenerationAndReset (render g).

Definition onComplete : M unit :=
  setAppState CODE_READY.

Definition doGenerateCode (r : AppSt) (p : CodeGenerationParams)
    (parentVersion : option Z) : Async unit :=
  Sync (setExecutionConsole [] ;; setAppState CODING)
    (AwaitGetToken (fun authToken =>
       let updatedParams := merge_params p (settings r) authToken in
       CallGenerateCode {| render := r; gen_params := p;
                           parentVersion := parentVersion;
                           request := updatedParams |}
         (Return tt))).

Definition doCreate (r : AppSt) (referenceImages : list string) : Async unit :=
  Sync (reset ;; setReferenceImages referenceImages)
    (if 0 <? arr_length referenceImages then
       doGenerateCode r
         {| generationType := create;
            image := arr_get referenceImages 0;
            resultImage := None;
            history := None;
            types.isImportedFromCode := None;
            authToken := None |}
         (currentVersion r)
     else Return tt).

Definition doUpdate (r : AppSt) (iframeElement : option HTMLIFrameElement) : Async unit :=
  match currentVersion r with
  | None =>
      Sync (toast_error "No current version set. Contact support or open a Github issue." ;;
            addEvent "CurrentVersionNull")
        (Return tt)
  | Some cv =>
      match extractHistoryTree (appHistory r) cv with
      | None =>
          Sync (addEvent "HistoryTreeFailed" ;;
                toast_error "Version history is invalid. This shouldn't happen. Please contact support or open a Github issue.")
            (Return tt)
      | Some historyTree =>
          let updatedHistory := historyTree ++ [updateInstruction r] in
          await
            (if shouldIncludeResultImage r then
               await (takeScreenshot iframeElement) (fun resultImage =>
                 doGenerateCode r
                   {| generationType := update;
                      image := arr_get (referenceImages r) 0;
                      resultImage := Some resultImage;
                      history := Some updatedHistory;
                      types.isImportedFromCode := Some (isImportedFromCode r);
                      authToken := None |}
                   (Some cv))
             else
               doGenerateCode r
                 {| generationType := update;
                    image := arr_get (referenceImages r) 0;
                    resultImage := None;
                    history := Some updatedHistory;
                    types.isImportedFromCode := Some (isImportedFromCode r);
                    authToken := None |}
                 (Some cv))
            (fun _ =>
               Sync (setGeneratedCode "" ;; setUpdateInstruction "") (Return tt))
      end
  end.

Definition handleTermDialogOpenChange (open : bool) : M unit :=
  setSettingsWith (fun s => {|
    openAiApiKey := openAiApiKey s;
    openAiBaseURL := openAiBaseURL s;
    screenshotOneApiKey := screenshotOneApiKey s;
    isImageGenerationEnabled := isImageGenerationEnabled s;
    editorTheme := editorTheme s;
    generatedCodeConfig := generatedCodeConfig s;
    isTermOfServiceAccepted := negb open;
    accessCode := accessCode s |}).

Definition setStack (stack : Stack) : M unit :=
  setSettingsWith (fun prev => {|
    openAiApiKey := openAiApiKey prev;
    openAiBaseURL := openAiBaseURL prev;
    screenshotOneApiKey := screenshotOneApiKey prev;
    isImageGenerationEnabled := isImageGenerationEnabled prev;
    editorTheme := editorTheme prev;
    generatedCodeConfig := stack;
    isTermOfServiceAccepted := isTermOfServiceAccepted prev;
    accessCode := accessCode prev |}).

Definition importFromCode (code : string) (stack : Stack) : M unit :=
  setIsImportedFromCode true ;;
  setGeneratedCode code ;;
  setStack stack ;;
  setAppHistory
    [ {| type := code_create;
         parentIndex := None;
         history_types.code := code;
         inputs := CodeCreateInputs code |} ] ;;
  setCurrentVersion (Some 0) ;;
  setAppState CODE_READY.

(** The [revertToVersion] prop handed to [HistoryDisplay].  [||]
    short-circuits, so [appHistory[index]] is read only after both
    comparisons failed. *)
Definition revertToVersion (r : AppSt) (index : Z) : M unit :=
  if index <? 0 then ret tt
  else if index >=? arr_length (appHistory r) then ret tt
  else
    guard <- readHistory (appHistory r) index ;;
    match guard with
    | None => ret tt
    | Some _ =>
        setCurrentVersion (Some index) ;;
        item <- readHistory (appHistory r) index ;;
        match item with
        | Some it => setGeneratedCode (code it)
        | None => throw "TypeError"
        end
    end.

(** ** Run-to-completion semantics *)

(** An async function run with nothing interleaved: [getToken()] settles
    with [authToken], [html2canvas] with what the library computes. *)
Fixpoint exec {A : Type} (authToken : option string) (p : Async A) (s : AppSt)
    : Result A * AppSt * list Effect :=
  match p with
  | Return a => (Returned a, s, [])
  | Reject e => (Threw e, s, [])
  | Sync m k =>
      match m s with
      | (Returned _, s1, e1) =>
          match exec authToken k s1 with
          | (r, s2, e2) => (r, s2, e1 ++ e2)
          end
      | (Threw e, s1, e1) => (Threw e, s1, e1)
      end
  | AwaitGetToken k => exec authToken (k authToken) s
  | AwaitHtml2canvas el k =>
      match html2canvas el with
      | Returned canvas => exec authToken (k canvas) s
      | Threw e => (Threw e, s, [])
      end
  | CallGenerateCode g k =>
      match exec authToken k s with
      | (r, s2, e2) => (r, s2, GenerateCode g :: e2)
      end
  end.

(** The generations a list of effects started, oldest first. *)
Fixpoint generations (l : list Effect) : list Generation :=
  match l with
  | [] => []
  | GenerateCode g :: l' => g :: generations l'
  | _ :: l' => generations l'
  end.

(** ** The event loop *)

(** An async function parked at an [await]. *)
Inductive Suspended :=
| AtGetToken (k : option string -> Async unit)
| AtHtml2canvas (el : Element) (k : HTMLCanvasElement -> Async unit).

(** Run an async function up to its next real [await].  A rejection or a
    throw ends it (nothing in [App] catches either). *)
Fixpoint run (p : Async unit) (s : AppSt) : option Suspended * AppSt * list Effect :=
  match p with
  | Return _ => (None, s, [])
  | Reject _ => (None, s, [])
  | Sync m k =>
      match m s with
      | (Returned _, s1, e1) =>
          match run k s1 with
          | (q, s2, e2) => (q, s2, e1 ++ e2)
          end
      | (Threw _, s1, e1) => (None, s1, e1)
      end
  | AwaitGetToken k => (Some (AtGetToken k), s, [])
  | AwaitHtml2canvas el k => (Some (AtHtml2canvas el k), s, [])
  | CallGenerateCode g k =>
      match run k s with
      | (q, s2, e2) => (q, s2, GenerateCode g :: e2)
      end
  end.

Record World := {
  store : AppSt;
  suspended : list Suspended;
  log : list Effect
}.

Definition initialWorld : World :=
  {| store := initialState; suspended := []; log := [] |}.

(** What can happen between two turns of the loop: the user operates a
    control, an awaited promise settles, or [generateCode] (which is not
    among the sources) assigns [wsRef.current] or fires one of the
    callbacks of a generation it was given. *)
Inductive Event :=
| ClickReset
| ClickCancel
| ClickUpdate (iframeElement : option HTMLIFrameElement)
| ClickDownload
| TypeInstruction (text : string)
| SwitchIncludeResultImage (checked : bool)
| SubmitImages (referenceImages : list string)
| SubmitCode (code : string) (stack : Stack)
| SelectVersion (index : Z)
| EditCode (code : string)
| SelectStack (stack : Stack)
| SaveSettings (st : Settings Stack)
| TermsDialogOpenChange (open : bool)
| GetTokenSettled (i : nat) (authToken : option string)
| Html2canvasSettled (i : nat)
| WsRefAssigned (ws : option WebSocket)
| WsOnChange (i : nat) (token : string)
| WsOnSetCode (i : nat) (code : string)
| WsOnStatusUpdate (i : nat) (line : string)
| WsOnCancel (i : nat)
| WsOnComplete (i : nat).

Definition is_INITIAL (a : AppState) : bool :=
  match a with INITIAL => true | _ => false end.
Definition is_CODING (a : AppState) : bool :=
  match a with CODING => true | _ => false end.
Definition is_CODE_READY (a : AppState) : bool :=
  match a with CODE_READY => true | _ => false end.

(** Whether the JSX of the current render shows the control an event
    operates.  [HistoryDisplay], [OutputSettingsSection] and the dialogs
    are always mounted (what they do with [shouldDisableReverts] and
    [shouldDisableUpdates] is not in the sources). *)
Definition rendered (s : AppSt) (ev : Event) : bool :=
  match ev with
  | ClickReset | ClickUpdate _ | ClickDownload
  | TypeInstruction _ | SwitchIncludeResultImage _ => is_CODE_READY (appState s)
  | ClickCancel => is_CODING (appState s)
  | SubmitImages _ | SubmitCode _ _ => is_INITIAL (appState s)
  | EditCode _ => is_CODING (appState s) || is_CODE_READY (appState s)
  | _ => true
  end.

Fixpoint remove_nth {A : Type} (i : nat) (l : list A) : list A :=
  match l, i with
  | [], _ => []
  | _ :: l', O => l'
  | x :: l', S i' => x :: remove_nth i' l'
  end.

Definition dispatch (m : M unit) (w : World) : World :=
  match m (store w) with
  | (_, s, e) => {| store := s; suspended := suspended w; log := log w ++ e |}
  end.

Definition spawn (p : Async unit) (w : World) : World :=
  match run p (store w) with
  | (Some q, s, e) =>
      {| store := s; suspended := suspended w ++ [q]; log := log w ++ e |}
  | (None, s, e) =>
      {| store := s; suspended := suspended w; log := log w ++ e |}
  end.

Definition drop_suspended (i : nat) (w : World) : World :=
  {| store := store w; suspended := remove_nth i (suspended w); log := log w |}.

(** One turn of the loop; [None] when the event cannot occur in [w].
    A user event runs the handler of the current render, whose snapshot
    is the current store. *)
Definition step (ev : Event) (w : World) : option World :=
  if negb (rendered (store w) ev) then None else
  let r := store w in
  match ev with
  | ClickReset => Some (dispatch reset w)
  | ClickCancel => Some (dispatch (cancelCodeGeneration r) w)
  | ClickUpdate iframeElement => Some (spawn (doUpdate r iframeElement) w)
  | ClickDownload => Some (dispatch (downloadCode r) w)
  | TypeInstruction text => Some (dispatch (setUpdateInstruction text) w)
  | SwitchIncludeResultImage checked =>
      Some (dispatch (setShouldIncludeResultImage checked) w)
  | SubmitImages referenceImages => Some (spawn (doCreate r referenceImages) w)
  | SubmitCode code stack => Some (dispatch (importFromCode code stack) w)
  | SelectVersion index => Some (dispatch (revertToVersion r index) w)
  | EditCode code => Some (dispatch (setGeneratedCode code) w)
  | SelectStack stack => Some (dispatch (setStack stack) w)
  | SaveSettings st => Some (dispatch (setSettings st) w)
  | TermsDialogOpenChange open => Some (dispatch (handleTermDialogOpenChange open) w)
  | GetTokenSettled i authToken =>
      match nth_error (suspended w) i with
      | Some (AtGetToken k) => Some (spawn (k authToken) (drop_suspended i w))
      | _ => None
      end
  | Html2canvasSettled i =>
      match nth_error (suspended w) i with
      | Some (AtHtml2canvas el k) =>
          match html2canvas el with
          | Returned canvas => Some (spawn (k canvas) (drop_suspended i w))
          | Threw _ => Some (drop_suspended i w)
          end
      | _ => None
      end
  | WsRefAssigned ws => Some (dispatch (assignWsRef ws) w)
  | WsOnChange i token =>
      match nth_error (generations (log w)) i with
      | Some _ => Some (dispatch (onChange token) w)
      | None => None
      end
  | WsOnSetCode i code =>
      match nth_error (generations (log w)) i with
      | Some g => Some (dispatch (onSetCode g code) w)
      | None => None
      end
  | WsOnStatusUpdate i line =>
      match nth_error (generations (log w)) i with
      | Some _ => Some (dispatch (onStatusUpdate line) w)
      | None => None
      end
  | WsOnCancel i =>
      match nth_error (generations (log w)) i with
      | Some g => Some (dispatch (onCancel g) w)
      | None => None
      end
  | WsOnComplete i =>
      match nth_error (generations (log w)) i with
      | Some _ => Some (dispatch onComplete w)
      | None => None
      end
  end.

Fixpoint steps (evs : list Event) (w : World) : option World :=
  match evs with
  | [] => Some w
  | ev :: evs' =>
      match step ev w with
      | Some w' => steps evs' w'
      | None => None
      end
  end.

Inductive reachable : World -> Prop :=
| reachable_init : reachable initialWorld
| reachable_step (w w' : World) (ev : Event) :
    reachable w -> step ev w = Some w' -> reachable w'.

(** ** Properties of the history and of the store *)

(** The kind of an entry fixes whether it has a parent. *)
Definition item_typed (it : HistoryItem) : bool :=
  match type it, parentIndex it with
  | ai_edit, Some _ => true
  | ai_edit, None => false
  | _, None => true
  | _, Some _ => false
  end.

(** The entry stored at index [i] points to an index before [i]. *)
Definition parent_precedes (i : Z) (it : HistoryItem) : bool :=
  match parentIndex it with
  | None => true
  | Some p => (0 <=? p) && (p <? i)
  end.

Fixpoint parents_precede_from (i : Z) (h : History) : bool :=
  match h with
  | [] => true
  | it :: h' => parent_precedes i it && parents_precede_from (i + 1) h'
  end.

(** The history is a forest whose edges point towards older entries, and
    the kinds agree with the parents. *)
Definition history_is_tree (h : History) : bool :=
  forallb item_typed h && parents_precede_from 0 h.

(** [currentVersion] is null or an index of [appHistory]. *)
Definition currentVersion_valid (s : AppSt) : Prop :=
  forall v, currentVersion s = Some v -> 0 <= v < arr_length (appHistory s).

Definition store_ok (s : AppSt) : Prop :=
  forallb item_typed (appHistory s) = true /\ currentVersion_valid s.

(** A piece of synchronous code that keeps [store_ok], whatever store it
    runs on. *)
Definition keeps_store_ok (m : M unit) : Prop :=
  forall s, store_ok s -> store_ok (store_of (m s)).

(** Every synchronous piece of an async function satisfies [P]. *)
Inductive all_sync (P : M unit -> Prop) : Async unit -> Prop :=
| all_Return (a : unit) : all_sync P (Return a)
| all_Reject (e : string) : all_sync P (Reject e)
| all_Sync (m : M unit) (k : Async unit) :
    P m -> all_sync P k -> all_sync P (Sync m k)
| all_AwaitGetToken (k : option string -> Async unit) :
    (forall t, all_sync P (k t)) -> all_sync P (AwaitGetToken k)
| all_AwaitHtml2canvas (el : Element) (k : HTMLCanvasElement -> Async unit) :
    (forall c, all_sync P (k c)) -> all_sync P (AwaitHtml2canvas el k)
| all_CallGenerateCode (g : Generation) (k : Async unit) :
    all_sync P k -> all_sync P (CallGenerateCode g k).

Definition suspended_ok (q : Suspended) : Prop :=
  match q with
  | AtGetToken k => forall t, all_sync keeps_store_ok (k t)
  | AtHtml2canvas _ k => forall c, all_sync keeps_store_ok (k c)
  end.

Definition world_ok (w : World) : Prop :=
  store_ok (store w) /\ Forall suspended_ok (suspended w).

(** An array read that stays inside the array. *)
Definition in_bounds_read (e : Effect) : bool :=
  match e with
  | HistoryRead len index => (0 <=? index) && (index <? len)
  | _ => true
  end.

(** The on-change callback fired once per token, in arrival order. *)
Fixpoint onChanges (tokens : list string) : M unit :=
  match tokens with
  | [] => ret tt
  | token :: rest => onChange token ;; onChanges rest
  end.

(** Whether the screenshot that [doUpdate] may await is delivered. *)
Definition screenshot_delivered (r : AppSt) (iframeElement : option HTMLIFrameElement)
    : bool :=
  if shouldIncludeResultImage r then
    match result_of (exec None (takeScreenshot iframeElement) r) with
    | Returned _ => true
    | Threw _ => false
    end
  else true.

(** The entry an update round appends. *)
Definition ai_edit_item (pv : Z) (code prompt : string) : HistoryItem :=
  {| type := ai_edit;
     parentIndex := Some pv;
     history_types.code := code;
     inputs := AiEditInputs prompt |}.

Definition code_create_item (code : string) : HistoryItem :=
  {| type := code_create;
     parentIndex := None;
     history_types.code := code;
     inputs := CodeCreateInputs code |}.

(** An iframe whose document has the body [b]. *)
Definition iframe_with_body (b : Element) : HTMLIFrameElement :=
  {| contentWindow := Some {| document := {| body := Some b |} |} |}.

(** The run in which a reset overtakes an update that is waiting for its
    screenshot: import code, switch the screenshot on, press Update,
    press Reset while [html2canvas] is still working, then let the
    screenshot, the token and the generated code arrive. *)
Definition stale_update_run (b : Element) (stack : Stack) (code : string) : list Event :=
  [ SubmitCode "<p>v0</p>" stack;
    SwitchIncludeResultImage true;
    TypeInstruction "make it blue";
    ClickUpdate (Some (iframe_with_body b));
    ClickReset;
    Html2canvasSettled 0;
    GetTokenSettled 0 None;
    WsOnSetCode 0 code ].

(** What [doUpdate] does once [currentVersion] and the history tree are
    there, in terms of the generation it requests. *)
Definition update_generation (r : AppSt) (cv : Z) (historyTree : list string)
    (resultImage : option string) (tok : option string) : Generation :=
  let p := {| generationType := update;
              image := arr_get (referenceImages r) 0;
              resultImage := resultImage;
              history := Some (historyTree ++ [updateInstruction r]);
              types.isImportedFromCode := Some (isImportedFromCode r);
              authToken := None |} in
  {| render := r; gen_params := p; parentVersion := Some cv;
     request := merge_params p (settings r) tok |}.

(** Code that writes neither [appHistory] nor [currentVersion]. *)
Definition frames_history (m : M unit) : Prop :=
  forall s, appHistory (store_of (m s)) = appHistory s
            /\ currentVersion (store_of (m s)) = currentVersion s.

(** The same overtaking without a screenshot: the user cancels and resets
    while [doGenerateCode] is still waiting for [getToken()], and the
    generation starts nevertheless. *)
Definition cancelled_update_run (stack : Stack) (code : string) : list Event :=
  [ SubmitCode "<p>v0</p>" stack;
    TypeInstruction "make it blue";
    ClickUpdate None;
    ClickCancel;
    ClickReset;
    GetTokenSettled 0 None;
    WsOnSetCode 0 code ].

(** The store after code was imported and an instruction typed. *)
Definition imported_store (code : string) (stack : Stack) (instruction : string)
    : AppSt :=
  store_of ((importFromCode code stack ;; setUpdateInstruction instruction)
              initialState).

(** ** Further properties of the store and of the event loop *)

(** The on-status-update callback fired once per line, in arrival order. *)
Fixpoint onStatusUpdates (lines : list string) : M unit :=
  match lines with
  | [] => ret tt
  | line :: rest => onStatusUpdate line ;; onStatusUpdates rest
  end.

(** [arr.slice(-1)[0]]: the last element, [undefined] on an empty array. *)
Fixpoint slice_last {A : Type} (arr : list A) : option A :=
  match arr with
  | [] => None
  | [x] => Some x
  | _ :: rest => slice_last rest
  end.

(** What the JSX shows next to the spinner while CODING. *)
Definition shown_status (s : AppSt) : option string :=
  slice_last (executionConsole s).

(** The store invariant of the event loop: [store_ok], there is a current
    version whenever the history is not empty, and the upload screen has
    no reference image. *)
Definition store_inv (s : AppSt) : Prop :=
  store_ok s
  /\ (currentVersion s = None -> appHistory s = [])
  /\ (appState s = INITIAL -> referenceImages s = []).

(** What holds of every generation that [App] hands to [generateCode]:
    its closure is a store that was valid, its parent version is the
    current version of that closure, a create round was started from a
    render without reference images and an update round has a parent. *)
Definition generation_ok (g : Generation) : Prop :=
  store_ok (render g)
  /\ parentVersion g = currentVersion (render g)
  /\ match generationType (gen_params g) with
     | create => referenceImages (render g) = []
     | update => parentVersion g <> None
     end.

(** How one turn of the loop may change the history: not at all, by
    appending one [ai_edit] entry, by emptying it, or by replacing it with
    a single parentless entry that is no [ai_edit]. *)
Definition history_change (h h' : History) : Prop :=
  h' = h
  \/ (exists it, type it = ai_edit /\ h' = h ++ [it])
  \/ h' = []
  \/ (exists it, type it <> ai_edit /\ parentIndex it = None /\ h' = [it]).

(** Synchronous code that keeps [store_inv], writes neither [appHistory]
    nor [currentVersion] and requests no generation. *)
Definition quiet (m : M unit) : Prop :=
  (forall s, store_inv s -> store_inv (store_of (m s)))
  /\ frames_history m
  /\ (forall s, generations (effects_of (m s)) = []).

(** Every synchronous piece of an async function satisfies [P] and every
    generation it requests satisfies [G]. *)
Inductive all_nodes (P : M unit -> Prop) (G : Generation -> Prop)
    : Async unit -> Prop :=
| nodes_Return (a : unit) : all_nodes P G (Return a)
| nodes_Reject (e : string) : all_nodes P G (Reject e)
| nodes_Sync (m : M unit) (k : Async unit) :
    P m -> all_nodes P G k -> all_nodes P G (Sync m k)
| nodes_AwaitGetToken (k : option string -> Async unit) :
    (forall t, all_nodes P G (k t)) -> all_nodes P G (AwaitGetToken k)
| nodes_AwaitHtml2canvas (el : Element) (k : HTMLCanvasElement -> Async unit) :
    (forall c, all_nodes P G (k c)) -> all_nodes P G (AwaitHtml2canvas el k)
| nodes_CallGenerateCode (g : Generation) (k : Async unit) :
    G g -> all_nodes P G k -> all_nodes P G (CallGenerateCode g k).

Definition suspended_inv (q : Suspended) : Prop :=
  match q with
  | AtGetToken k => forall t, all_nodes quiet generation_ok (k t)
  | AtHtml2canvas _ k => forall c, all_nodes quiet generation_ok (k c)
  end.

Definition world_inv (w : World) : Prop :=
  store_inv (store w)
  /\ Forall generation_ok (generations (log w))
  /\ Forall suspended_inv (suspended w).

(** The entry a create round installs. *)
Definition ai_create_item (code : string) (image_url : option string) : HistoryItem :=
  {| type := ai_create;
     parentIndex := None;
     history_types.code := code;
     inputs := AiCreateInputs image_url |}.

(** A handler that, run on [s] as one turn of the loop, keeps
    [store_inv], changes the history as [history_change] allows and
    requests no generation. *)
Definition turn_ok (m : M unit) (s : AppSt) : Prop :=
  store_inv (store_of (m s))
  /\ history_change (appHistory s) (appHistory (store_of (m s)))
  /\ generations (effects_of (m s)) = [].

(** ** Basic facts *)

Lemma arr_get_Some_range (A : Type) (l : list A) (i : Z) (x : A) :
  arr_get l i = Some x -> 0 <= i < arr_length l.
Proof.
  unfold arr_get, arr_length.
  destruct (Z.ltb_spec i 0) as [Hneg | Hpos]; [discriminate |].
  intros H.
  assert (Hlt : (Z.to_nat i < length l)%nat) by (apply nth_error_Some; congruence).
  lia.
Qed.

Lemma arr_get_None_range (A : Type) (l : list A) (i : Z) :
  arr_get l i = None -> i < 0 \/ arr_length l <= i.
Proof.
  unfold arr_get, arr_length.
  destruct (Z.ltb_spec i 0) as [Hneg | Hpos]; [lia |].
  intros H. apply nth_error_None in H. lia.
Qed.

Lemma arr_get_in_range (A : Type) (l : list A) (i : Z) :
  0 <= i < arr_length l -> exists x, arr_get l i = Some x.
Proof.
  intros Hr. destruct (arr_get l i) as [x |] eqn:E; [eauto |].
  apply arr_get_None_range in E. lia.
Qed.

Lemma arr_get_last (A : Type) (l : list A) (x : A) :
  arr_get (l ++ [x]) (arr_length (l ++ [x]) - 1) = Some x.
Proof.
  unfold arr_get, arr_length. rewrite length_app. simpl.
  destruct (Z.ltb_spec (Z.of_nat (length l + 1) - 1) 0) as [Hneg | Hpos]; [lia |].
  replace (Z.to_nat (Z.of_nat (length l + 1) - 1)) with (length l) by lia.
  rewrite nth_error_app2 by lia. rewrite Nat.sub_diag. reflexivity.
Qed.

Lemma append_nil_r (a : string) : String.append a "" = a.
Proof. induction a as [| c a IH]; simpl; [reflexivity | now rewrite IH]. Qed.

Lemma append_assoc (a b c : string) :
  String.append (String.append a b) c = String.append a (String.append b c).
Proof. induction a as [| x a IH]; simpl; [reflexivity | now rewrite IH]. Qed.

(** ** Streaming (C5) *)

(** C5: each on-change callback replaces [generatedCode] by its previous
    value followed by the token and touches nothing else; hence after the
    callbacks for [tokens] the displayed code is the code at the start of
    streaming followed by the tokens in arrival order, and every other
    cell is as it was. *)
Theorem onChange_streams_tokens :
  forall (tokens : list string) (token : string) (s : AppSt),
    onChange token s
      = (Returned tt,
         {| appState := appState s;
            generatedCode := String.append (generatedCode s) token;
            referenceImages := referenceImages s;
            executionConsole := executionConsole s;
            updateInstruction := updateInstruction s;
            isImportedFromCode := isImportedFromCode s;
            settings := settings s;
            appHistory := appHistory s;
            currentVersion := currentVersion s;
            shouldIncludeResultImage := shouldIncludeResultImage s;
            wsRef := wsRef s |},
         [])
    /\ onChanges tokens s
      = (Returned tt,
         {| appState := appState s;
            generatedCode :=
              String.append (generatedCode s) (fold_right String.append "" tokens);
            referenceImages := referenceImages s;
            executionConsole := executionConsole s;
            updateInstruction := updateInstruction s;
            isImportedFromCode := isImportedFromCode s;
            settings := settings s;
            appHistory := appHistory s;
            currentVersion := currentVersion s;
            shouldIncludeResultImage := shouldIncludeResultImage s;
            wsRef := wsRef s |},
         []).
Proof.
  intros tokens token s. split; [reflexivity |].
  revert s. induction tokens as [| t rest IH]; intros s.
  - destruct s. cbn. rewrite append_nil_r. reflexivity.
  - cbn [onChanges fold_right]. unfold bind at 1.
    replace (onChange t s)
      with (Returned tt,
            {| appState := appState s;
               generatedCode := String.append (generatedCode s) t;
               referenceImages := referenceImages s;
               executionConsole := executionConsole s;
               updateInstruction := updateInstruction s;
               isImportedFromCode := isImportedFromCode s;
               settings := settings s;
               appHistory := appHistory s;
               currentVersion := currentVersion s;
               shouldIncludeResultImage := shouldIncludeResultImage s;
               wsRef := wsRef s |},
            @nil Effect) by reflexivity.
    rewrite IH. cbn. rewrite append_assoc. reflexivity.
Qed.

(** ** Download (C7) *)

(** C7: [downloadCode] wraps the current [generatedCode] in a Blob of
    type text/html, clicks an anchor whose [href] is the blob's URL and
    whose [download] name is index.html, and leaves the whole store
    (so [generatedCode], [appHistory], [currentVersion], [appState] and
    [settings]) as it was. *)
Theorem downloadCode_spec :
  forall s : AppSt,
    let blob := {| blobParts := [generatedCode s]; blob_type := "text/html" |} in
    let a := {| href := BlobURL blob; download := "index.html" |} in
    downloadCode s s
      = (Returned tt, s,
         [AddEvent "Download"; CreateObjectURL blob; AppendChild a; Click a;
          RemoveChild a; RevokeObjectURL (BlobURL blob)]).
Proof. intros s. reflexivity. Qed.

(** ** Reverting (C6) *)

(** C6: [revertToVersion] never throws, never changes [appHistory] and
    reads it only inside its bounds; when [index] is an index of
    [appHistory] it sets [currentVersion] to it and [generatedCode] to the
    code of that entry and leaves every other cell as it was, and
    otherwise it changes nothing at all and reads nothing. *)
Theorem revertToVersion_spec :
  forall (s : AppSt) (index : Z),
    let out := revertToVersion s index s in
    result_of out = Returned tt
    /\ appHistory (store_of out) = appHistory s
    /\ forallb in_bounds_read (effects_of out) = true
    /\ match arr_get (appHistory s) index with
       | Some it =>
           0 <= index < arr_length (appHistory s)
           /\ currentVersion (store_of out) = Some index
           /\ generatedCode (store_of out) = code it
           /\ store_of out
              = {| appState := appState s;
                   generatedCode := code it;
                   referenceImages := referenceImages s;
                   executionConsole := executionConsole s;
                   updateInstruction := updateInstruction s;
                   isImportedFromCode := isImportedFromCode s;
                   settings := settings s;
                   appHistory := appHistory s;
                   currentVersion := Some index;
                   shouldIncludeResultImage := shouldIncludeResultImage s;
                   wsRef := wsRef s |}
           /\ effects_of out
              = [HistoryRead (arr_length (appHistory s)) index;
                 HistoryRead (arr_length (appHistory s)) index]
       | None =>
           (index < 0 \/ arr_length (appHistory s) <= index)
           /\ store_of out = s
           /\ effects_of out = []
       end.
Proof.
  intros s index out. subst out. unfold revertToVersion.
  destruct (Z.ltb_spec index 0) as [Hneg | Hpos].
  { assert (E : arr_get (appHistory s) index = None).
    { unfold arr_get. destruct (Z.ltb_spec index 0); [reflexivity | lia]. }
    rewrite E. cbn. repeat split; auto. }
  destruct (Z.geb_spec index (arr_length (appHistory s))) as [Hge | Hlt].
  { assert (E : arr_get (appHistory s) index = None).
    { unfold arr_get, arr_length in *.
      destruct (Z.ltb_spec index 0); [reflexivity |].
      apply nth_error_None. lia. }
    rewrite E. cbn. repeat split; auto; right; lia. }
  destruct (arr_get_in_range (appHistory s) (i := index)) as [it E]; [lia |].
  unfold bind, readHistory, emit, ret, bind. cbn. rewrite E. cbn.
  repeat split; lia.
Qed.

(** ** Screenshots (C10) *)

(** C10: when the preview iframe, its content window or the body of its
    document is missing, [takeScreenshot] settles with the empty string and
    throws nothing; when all three are there it settles with the PNG data
    URL of the canvas that html2canvas rendered from that body.  The store
    is not touched either way. *)
Theorem takeScreenshot_spec :
  forall (iframeElement : option HTMLIFrameElement) (tok : option string) (s : AppSt),
    ((iframeElement = None
      \/ (exists f, iframeElement = Some f /\ contentWindow f = None)
      \/ (exists f w, iframeElement = Some f /\ contentWindow f = Some w
                      /\ body (document w) = None)) ->
     exec tok (takeScreenshot iframeElement) s = (Returned "", s, []))
    /\ (forall f w b canvas,
          iframeElement = Some f -> contentWindow f = Some w ->
          body (document w) = Some b -> html2canvas b = Returned canvas ->
          exec tok (takeScreenshot iframeElement) s
            = (Returned (toDataURL canvas "image/png"), s, [])).
Proof.
  intros iframeElement tok s. split.
  - intros [-> | [(f & -> & Hw) | (f & w & -> & Hw & Hb)]]; cbn.
    + reflexivity.
    + rewrite Hw. reflexivity.
    + rewrite Hw, Hb. reflexivity.
  - intros f w b canvas -> Hw Hb Hc. cbn. rewrite Hw, Hb. cbn. rewrite Hc.
    reflexivity.
Qed.

(** ** Creation (C9) *)

Lemma reset_spec (s : AppSt) :
  reset s
    = (Returned tt,
       {| appState := INITIAL; generatedCode := ""; referenceImages := [];
          executionConsole := []; updateInstruction := "";
          isImportedFromCode := false; settings := settings s;
          appHistory := []; currentVersion := None;
          shouldIncludeResultImage := false; wsRef := wsRef s |},
       []).
Proof. reflexivity. Qed.

(** C9: [doCreate] starts from the reset store, that is from the store in
    which [reset] has put every cell it writes back to its first value
    (it writes all of them but [settings] and the socket reference).  For
    an empty list it then only records the (empty) list: nothing is
    requested and the app is INITIAL with an empty history and no current
    version.  For a list with first image [img] the app is CODING and
    exactly one generation is requested, of type create and for [img]. *)
Theorem doCreate_spec :
  forall (r s : AppSt) (referenceImages : list string) (tok : option string),
    let s0 := store_of (reset s) in
    let out := exec tok (doCreate r referenceImages) s in
    s0 = {| appState := INITIAL; generatedCode := ""; referenceImages := [];
            executionConsole := []; updateInstruction := "";
            isImportedFromCode := false; settings := settings s;
            appHistory := []; currentVersion := None;
            shouldIncludeResultImage := false; wsRef := wsRef s |}
    /\ match referenceImages with
       | [] =>
           out = (Returned tt, store_of (setReferenceImages [] s0), [])
           /\ appState (store_of out) = INITIAL
           /\ appHistory (store_of out) = []
           /\ currentVersion (store_of out) = None
       | img :: _ =>
           result_of out = Returned tt
           /\ store_of out
              = store_of ((setReferenceImages referenceImages ;;
                           setExecutionConsole [] ;;
                           setAppState CODING) s0)
           /\ appState (store_of out) = CODING
           /\ (exists g,
                 effects_of out = [GenerateCode g]
                 /\ generationType (params (request g)) = create
                 /\ image (params (request g)) = Some img
                 /\ generationType (gen_params g) = create)
       end.
Proof.
  intros r s referenceImages tok s0 out. subst s0 out.
  split; [reflexivity |].
  destruct referenceImages as [| img rest].
  - cbn. repeat split.
  - unfold doCreate.
    assert (Hlen : (0 <? arr_length (img :: rest)) = true).
    { apply Z.ltb_lt. unfold arr_length. simpl length. lia. }
    rewrite Hlen. cbn. repeat split. eexists. repeat split.
Qed.

(** ** Updates (C2, C3, C4) *)

Lemma doUpdate_generations (r s : AppSt) (iframeElement : option HTMLIFrameElement)
    (tok : option string) (cv : Z) (historyTree : list string) :
  currentVersion r = Some cv ->
  extractHistoryTree (appHistory r) cv = Some historyTree ->
  generations (effects_of (exec tok (doUpdate r iframeElement) s))
    = if screenshot_delivered r iframeElement
      then [update_generation r cv historyTree
              (if shouldIncludeResultImage r
               then match result_of (exec None (takeScreenshot iframeElement) r) with
                    | Returned png => Some png
                    | Threw _ => None
                    end
               else None) tok]
      else [].
Proof.
  intros Hcv Htree. unfold doUpdate, screenshot_delivered. rewrite Hcv, Htree.
  destruct (shouldIncludeResultImage r); [| reflexivity].
  destruct iframeElement as [[[[[[b |]]] |]] |]; cbn; try reflexivity.
  destruct (html2canvas b) as [canvas | e]; reflexivity.
Qed.

(** C2: when [doUpdate] runs with a current version for which
    [extractHistoryTree] succeeds, the request handed to [generateCode]
    carries as [history] exactly the extracted sequence followed by the
    current [updateInstruction]; there is exactly one such request, or none
    at all when the awaited screenshot is not delivered. *)
Theorem doUpdate_request_history :
  forall (s : AppSt) (iframeElement : option HTMLIFrameElement)
         (tok : option string) (cv : Z) (historyTree : list string),
    currentVersion s = Some cv ->
    extractHistoryTree (appHistory s) cv = Some historyTree ->
    map (fun g => history (params (request g)))
        (generations (effects_of (exec tok (doUpdate s iframeElement) s)))
      = if screenshot_delivered s iframeElement
        then [Some (historyTree ++ [updateInstruction s])]
        else [].
Proof.
  intros s iframeElement tok cv historyTree Hcv Htree.
  rewrite (doUpdate_generations s s iframeElement tok Hcv Htree).
  destruct (screenshot_delivered s iframeElement); reflexivity.
Qed.

(** C3: the on-set-code callback of the generation that [doUpdate]
    requested appends exactly one entry to the [appHistory] it finds: an
    [ai_edit] entry with the final code, whose parent is the version that
    was current when the update started and whose prompt is the
    instruction the user had typed; [currentVersion] becomes the index of
    that entry, the new length minus one. *)
Theorem onSetCode_update_appends :
  forall (s : AppSt) (iframeElement : option HTMLIFrameElement)
         (tok : option string) (cv : Z) (historyTree : list string)
         (g : Generation) (now : AppSt) (code : string),
    currentVersion s = Some cv ->
    extractHistoryTree (appHistory s) cv = Some historyTree ->
    In g (generations (effects_of (exec tok (doUpdate s iframeElement) s))) ->
    let item := ai_edit_item cv code (updateInstruction s) in
    let out := onSetCode g code now in
    result_of out = Returned tt
    /\ effects_of out = []
    /\ appHistory (store_of out) = appHistory now ++ [item]
    /\ currentVersion (store_of out)
       = Some (arr_length (appHistory (store_of out)) - 1)
    /\ arr_get (appHistory (store_of out))
               (arr_length (appHistory (store_of out)) - 1) = Some item
    /\ generatedCode (store_of out) = code
    /\ store_of out
       = store_of ((setGeneratedCode code ;;
                    setCurrentVersion (Some (arr_length (appHistory now))) ;;
                    setAppHistory (appHistory now ++ [item])) now).
Proof.
  intros s iframeElement tok cv historyTree g now code Hcv Htree Hin item out.
  rewrite (doUpdate_generations s s iframeElement tok Hcv Htree) in Hin.
  destruct (screenshot_delivered s iframeElement); [| destruct Hin].
  destruct Hin as [<- | []]. subst out item. cbn.
  assert (Hlen : arr_length (appHistory now ++ [ai_edit_item cv code (updateInstruction s)]) - 1
                 = arr_length (appHistory now)).
  { cbn. unfold arr_length. rewrite !length_app. simpl length. lia. }
  fold (ai_edit_item cv code (updateInstruction s)).
  rewrite arr_get_last. rewrite Hlen. repeat split.
Qed.

(** C4: [doUpdate] fails atomically.  When [currentVersion] is null or
    [extractHistoryTree] throws, it returns normally (nothing is thrown),
    leaves the whole store as it was (so [appHistory], [currentVersion],
    [generatedCode], [updateInstruction] and [appState]), requests no
    generation and stays suspended nowhere; the user sees the failure as
    one toast error, next to which only the analytics event of the branch
    is recorded. *)
Theorem doUpdate_failure_atomic :
  forall (s : AppSt) (iframeElement : option HTMLIFrameElement) (tok : option string),
    (currentVersion s = None
     \/ exists cv, currentVersion s = Some cv
                   /\ extractHistoryTree (appHistory s) cv = None) ->
    let out := exec tok (doUpdate s iframeElement) s in
    result_of out = Returned tt
    /\ store_of out = s
    /\ generations (effects_of out) = []
    /\ run (doUpdate s iframeElement) s = (None, s, effects_of out)
    /\ effects_of out
       = match currentVersion s with
         | None =>
             [ToastError "No current version set. Contact support or open a Github issue.";
              AddEvent "CurrentVersionNull"]
         | Some _ =>
             [AddEvent "HistoryTreeFailed";
              ToastError "Version history is invalid. This shouldn't happen. Please contact support or open a Github issue."]
         end.
Proof.
  intros s iframeElement tok H out. subst out. unfold doUpdate.
  destruct H as [Hcv | (cv & Hcv & Htree)]; rewrite Hcv; [| rewrite Htree];
    cbn; repeat split.
Qed.

(** ** Invariants of the event loop *)

Lemma frames_keeps (m : M unit) : frames_history m -> keeps_store_ok m.
Proof.
  intros Hf s [Ht Hv]. destruct (Hf s) as [Ha Hc].
  unfold store_ok, currentVersion_valid. rewrite Ha, Hc. split; assumption.
Qed.

Ltac frame := apply frames_keeps; intros ?; split; reflexivity.

Lemma reset_keeps : keeps_store_ok reset.
Proof.
  intros s _. split; [reflexivity |]. intros v Hv. discriminate Hv.
Qed.

Lemma cancelCodeGenerationAndReset_keeps (r : AppSt) :
  keeps_store_ok (cancelCodeGenerationAndReset r).
Proof.
  unfold cancelCodeGenerationAndReset.
  destruct (currentVersion r) as [v |]; [| apply reset_keeps].
  apply frames_keeps. intros s.
  unfold bind, readHistory, emit, ret. cbn.
  destruct (arr_get (appHistory r) v); split; reflexivity.
Qed.

Lemma cancelCodeGeneration_keeps (r : AppSt) :
  keeps_store_ok (cancelCodeGeneration r).
Proof.
  intros s Hs. unfold cancelCodeGeneration.
  pose proof (cancelCodeGenerationAndReset_keeps r Hs) as H.
  unfold bind at 1 2. unfold gets.
  destruct (wsRef s); cbn;
    destruct (cancelCodeGenerationAndReset r s) as [[res s'] e]; exact H.
Qed.

Lemma importFromCode_keeps (code : string) (stack : Stack) :
  keeps_store_ok (importFromCode code stack).
Proof.
  intros s _. split; [reflexivity |].
  intros v Hv. cbn in Hv. injection Hv as <-. cbn. unfold arr_length. simpl. lia.
Qed.

Lemma revertToVersion_store (s : AppSt) (index : Z) :
  store_of (revertToVersion s index s)
    = match arr_get (appHistory s) index with
      | Some it =>
          store_of ((setCurrentVersion (Some index) ;; setGeneratedCode (code it)) s)
      | None => s
      end.
Proof.
  unfold revertToVersion.
  destruct (arr_get (appHistory s) index) as [it |] eqn:E.
  - apply arr_get_Some_range in E as Hr.
    destruct (Z.ltb_spec index 0) as [Hneg | Hpos]; [lia |].
    destruct (Z.geb_spec index (arr_length (appHistory s))) as [Hge | Hlt]; [lia |].
    unfold bind, readHistory, emit, ret. cbn. rewrite E. reflexivity.
  - destruct (index <? 0); [reflexivity |].
    destruct (index >=? arr_length (appHistory s)); [reflexivity |].
    unfold bind, readHistory, emit, ret. cbn. rewrite E. reflexivity.
Qed.

Lemma revertToVersion_keeps (s : AppSt) (index : Z) :
  store_ok s -> store_ok (store_of (revertToVersion s index s)).
Proof.
  intros [Ht Hv]. rewrite revertToVersion_store.
  destruct (arr_get (appHistory s) index) as [it |] eqn:E.
  - split; [exact Ht |]. intros v Hc. cbn in Hc. injection Hc as <-.
    exact (arr_get_Some_range _ _ E).
  - split; assumption.
Qed.

Lemma forallb_item_typed_app (h : History) (it : HistoryItem) :
  forallb item_typed (h ++ [it]) = forallb item_typed h && item_typed it.
Proof. rewrite forallb_app. simpl. rewrite andb_true_r. reflexivity. Qed.

Lemma onSetCode_keeps (g : Generation) (code : string) :
  keeps_store_ok (onSetCode g code).
Proof.
  intros s [Ht Hv]. unfold onSetCode.
  destruct (generationType (gen_params g)).
  - split; [reflexivity |].
    intros v Hc. cbn in Hc. injection Hc as <-. cbn. unfold arr_length. simpl.
    clear. lia.
  - destruct (parentVersion g) as [pv |]; cbn.
    + split; cbn.
      * rewrite forallb_item_typed_app, Ht. reflexivity.
      * intros v Hc. cbn in Hc. injection Hc as <-.
        cbn. unfold arr_length. rewrite !length_app. simpl length. lia.
    + split; assumption.
Qed.

Lemma run_keeps (p : Async unit) :
  all_sync keeps_store_ok p ->
  forall s, store_ok s ->
    store_ok (snd (fst (run p s)))
    /\ match fst (fst (run p s)) with
       | Some q => suspended_ok q
       | None => True
       end.
Proof.
  induction 1 as [a | e | m k Hm Hk IH | k Hk IH | el k Hk IH | g k Hk IH];
    intros s Hs; cbn.
  - split; [exact Hs | exact I].
  - split; [exact Hs | exact I].
  - specialize (Hm s Hs). unfold store_of in Hm.
    destruct (m s) as [[[[] | e] s1] e1]; cbn in Hm.
    + specialize (IH s1 Hm). destruct (run k s1) as [[q s2] e2]. exact IH.
    + split; [exact Hm | exact I].
  - split; [exact Hs | exact Hk].
  - split; [exact Hs | exact Hk].
  - specialize (IH s Hs). destruct (run k s) as [[q s2] e2]. exact IH.
Qed.

Lemma doGenerateCode_all_sync (r : AppSt) (p : CodeGenerationParams) (pv : option Z) :
  all_sync keeps_store_ok (doGenerateCode r p pv).
Proof.
  unfold doGenerateCode. constructor; [frame |].
  constructor. intros t. constructor. constructor.
Qed.

Lemma doCreate_all_sync (r : AppSt) (referenceImages : list string) :
  all_sync keeps_store_ok (doCreate r referenceImages).
Proof.
  unfold doCreate. constructor.
  - intros s _. split; [reflexivity |]. intros v Hv. discriminate Hv.
  - destruct (0 <? arr_length referenceImages);
      [apply doGenerateCode_all_sync | constructor].
Qed.

Lemma doUpdate_all_sync (r : AppSt) (iframeElement : option HTMLIFrameElement) :
  all_sync keeps_store_ok (doUpdate r iframeElement).
Proof.
  unfold doUpdate.
  destruct (currentVersion r) as [cv |].
  2:{ constructor; [frame | constructor]. }
  destruct (extractHistoryTree (appHistory r) cv) as [historyTree |].
  2:{ constructor; [frame | constructor]. }
  assert (Htail : forall p,
            all_sync keeps_store_ok
              (await (doGenerateCode r p (Some cv))
                 (fun _ => Sync (setGeneratedCode "" ;; setUpdateInstruction "")
                             (Return tt)))).
  { intros p. cbn. constructor; [frame |].
    constructor. intros t. constructor. constructor; [frame | constructor]. }
  destruct (shouldIncludeResultImage r); [| apply Htail].
  destruct iframeElement as [[[[[[b |]]] |]] |]; cbn -[doGenerateCode];
    try apply Htail.
  constructor. intros c. apply Htail.
Qed.

Lemma dispatch_ok (m : M unit) (w : World) :
  world_ok w -> store_ok (store_of (m (store w))) -> world_ok (dispatch m w).
Proof.
  intros [_ Hq] Hs. unfold dispatch, store_of in *.
  destruct (m (store w)) as [[res s] e]. split; assumption.
Qed.

Lemma spawn_ok (p : Async unit) (w : World) :
  world_ok w -> all_sync keeps_store_ok p -> world_ok (spawn p w).
Proof.
  intros [Hs Hq] Hp. unfold spawn.
  destruct (run_keeps Hp Hs) as [Hs' Hq'].
  destruct (run p (store w)) as [[[q |] s] e]; cbn in *; split; auto.
  apply Forall_app; split; [exact Hq | constructor; [exact Hq' | constructor]].
Qed.

Lemma remove_nth_Forall (A : Type) (P : A -> Prop) (l : list A) (i : nat) :
  Forall P l -> Forall P (remove_nth i l).
Proof.
  intros H. revert i. induction H as [| x l Hx Hl IH]; intros i.
  - destruct i; constructor.
  - destruct i; cbn; [exact Hl | constructor; [exact Hx | apply IH]].
Qed.

Lemma drop_suspended_ok (i : nat) (w : World) :
  world_ok w -> world_ok (drop_suspended i w).
Proof.
  intros [Hs Hq]. split; [exact Hs | apply remove_nth_Forall, Hq].
Qed.

Lemma suspended_nth_ok (w : World) (i : nat) (q : Suspended) :
  world_ok w -> nth_error (suspended w) i = Some q -> suspended_ok q.
Proof.
  intros [_ Hq] Hn. rewrite Forall_forall in Hq. apply Hq.
  eapply nth_error_In, Hn.
Qed.

Lemma step_ok (ev : Event) (w w' : World) :
  world_ok w -> step ev w = Some w' -> world_ok w'.
Proof.
  intros Hw. pose proof Hw as [Hs Hq]. unfold step.
  destruct (negb (rendered (store w) ev)); [discriminate |].
  destruct ev; intros H;
    try (injection H as <-; apply dispatch_ok; [exact Hw |]).
  - apply reset_keeps, Hs.
  - apply cancelCodeGeneration_keeps, Hs.
  - injection H as <-. apply spawn_ok; [exact Hw | apply doUpdate_all_sync].
  - exact Hs.
  - split; [apply Hs | apply Hs].
  - split; [apply Hs | apply Hs].
  - injection H as <-. apply spawn_ok; [exact Hw | apply doCreate_all_sync].
  - apply importFromCode_keeps, Hs.
  - apply revertToVersion_keeps, Hs.
  - split; [apply Hs | apply Hs].
  - split; [apply Hs | apply Hs].
  - split; [apply Hs | apply Hs].
  - split; [apply Hs | apply Hs].
  - destruct (nth_error (suspended w) i) as [[k | el k] |] eqn:E; try discriminate.
    injection H as <-. apply spawn_ok; [apply drop_suspended_ok, Hw |].
    apply (suspended_nth_ok i Hw E).
  - destruct (nth_error (suspended w) i) as [[k | el k] |] eqn:E; try discriminate.
    destruct (html2canvas el) as [canvas | e]; injection H as <-.
    + apply spawn_ok; [apply drop_suspended_ok, Hw |].
      apply (suspended_nth_ok i Hw E).
    + apply drop_suspended_ok, Hw.
  - split; [apply Hs | apply Hs].
  - destruct (nth_error (generations (log w)) i); [| discriminate].
    injection H as <-. apply dispatch_ok; [exact Hw |]. split; [apply Hs | apply Hs].
  - destruct (nth_error (generations (log w)) i) as [g |]; [| discriminate].
    injection H as <-. apply dispatch_ok; [exact Hw |]. apply onSetCode_keeps, Hs.
  - destruct (nth_error (generations (log w)) i); [| discriminate].
    injection H as <-. apply dispatch_ok; [exact Hw |]. split; [apply Hs | apply Hs].
  - destruct (nth_error (generations (log w)) i) as [g |]; [| discriminate].
    injection H as <-. apply dispatch_ok; [exact Hw |].
    apply cancelCodeGenerationAndReset_keeps, Hs.
  - destruct (nth_error (generations (log w)) i); [| discriminate].
    injection H as <-. apply dispatch_ok; [exact Hw |]. split; [apply Hs | apply Hs].
Qed.

Lemma reachable_ok (w : World) : reachable w -> world_ok w.
Proof.
  induction 1 as [| w w' ev Hr IH Hstep].
  - split; [| constructor]. split; [reflexivity |]. intros v Hv. discriminate Hv.
  - exact (step_ok ev IH Hstep).
Qed.

(** In every reachable world the kinds of the entries agree with their
    parents: [ai_create] and [code_create] entries have none, [ai_edit]
    entries have one. *)
Lemma reachable_history_typed (w : World) :
  reachable w -> forallb item_typed (appHistory (store w)) = true.
Proof. intros H. apply (reachable_ok H). Qed.

(** In every reachable world [currentVersion] is null or an index of
    [appHistory]. *)
Lemma reachable_currentVersion_valid (w : World) :
  reachable w -> currentVersion_valid (store w).
Proof. intros H. apply (reachable_ok H). Qed.

Lemma steps_reachable (evs : list Event) (w w' : World) :
  reachable w -> steps evs w = Some w' -> reachable w'.
Proof.
  revert w. induction evs as [| ev evs IH]; intros w Hr H; cbn in H.
  - injection H as <-. exact Hr.
  - destruct (step ev w) as [w1 |] eqn:E; [| discriminate].
    apply (IH w1); [exact (reachable_step ev Hr E) | exact H].
Qed.

(** ** Cancelling (C8) *)


(** ** The history tree (C1) *)

Lemma parents_precede_from_app (h : History) (it : HistoryItem) (i : Z) :
  parents_precede_from i (h ++ [it])
    = parents_precede_from i h && parent_precedes (i + arr_length h) it.
Proof.
  revert i. induction h as [| x h IH]; intros i.
  - cbn. unfold arr_length. simpl length. rewrite Z.add_0_r, andb_true_r.
    reflexivity.
  - cbn [app parents_precede_from]. rewrite IH.
    replace (i + 1 + arr_length h) with (i + arr_length (x :: h))
      by (unfold arr_length; simpl length; lia).
    rewrite andb_assoc. reflexivity.
Qed.

(** Run one after the other, the writers of [appHistory] keep it a tree:
    [reset], the create callback and [importFromCode] install a tree, and
    the update callback keeps one as long as the parent it captured is an
    index of the history it appends to. *)
Lemma writers_keep_tree (g : Generation) (code : string) (stack : Stack) (s : AppSt) :
  history_is_tree (appHistory (store_of (reset s))) = true
  /\ history_is_tree (appHistory (store_of (importFromCode code stack s))) = true
  /\ (generationType (gen_params g) = create ->
      history_is_tree (appHistory (store_of (onSetCode g code s))) = true)
  /\ (generationType (gen_params g) = update ->
      history_is_tree (appHistory s) = true ->
      (forall pv, parentVersion g = Some pv -> 0 <= pv < arr_length (appHistory s)) ->
      history_is_tree (appHistory (store_of (onSetCode g code s))) = true).
Proof.
  repeat split; try reflexivity.
  - intros Hg. unfold onSetCode. rewrite Hg. reflexivity.
  - intros Hg Ht Hpv. unfold onSetCode. rewrite Hg.
    destruct (parentVersion g) as [pv |]; cbn; [| exact Ht].
    specialize (Hpv pv eq_refl).
    unfold history_is_tree in *. apply andb_true_iff in Ht as [Ht1 Ht2].
    rewrite forallb_item_typed_app, parents_precede_from_app, Ht1, Ht2. cbn.
    apply andb_true_iff; split; [apply Z.leb_le | apply Z.ltb_lt]; lia.
Qed.

(** An update round that nothing overtakes keeps the tree: when the
    callback runs on the history that [doUpdate] saw, the parent it
    captured is an index of that history. *)
Lemma undisturbed_update_keeps_tree (s : AppSt)
    (iframeElement : option HTMLIFrameElement) (tok : option string)
    (g : Generation) (code : string) :
  store_ok s ->
  history_is_tree (appHistory s) = true ->
  In g (generations (effects_of (exec tok (doUpdate s iframeElement) s))) ->
  history_is_tree
    (appHistory
       (store_of (onSetCode g code
                    (store_of (exec tok (doUpdate s iframeElement) s))))) = true.
Proof.
  intros [_ Hv] Ht Hin. unfold doUpdate in *.
  destruct (currentVersion s) as [cv |] eqn:Ecv; [| destruct Hin].
  destruct (extractHistoryTree (appHistory s) cv) as [historyTree |];
    [| destruct Hin].
  specialize (Hv cv Ecv).
  assert (Hkeep :
            history_is_tree
              (appHistory s ++ [ai_edit_item cv code (updateInstruction s)]) = true).
  { unfold history_is_tree in *. apply andb_true_iff in Ht as [Ht1 Ht2].
    rewrite forallb_item_typed_app, parents_precede_from_app, Ht1, Ht2. cbn.
    apply andb_true_iff; split; [apply Z.leb_le | apply Z.ltb_lt]; lia. }
  destruct (shouldIncludeResultImage s).
  - destruct iframeElement as [[[[[[b |]]] |]] |]; cbn in Hin |- *;
      try (destruct Hin as [<- | []]; cbn; exact Hkeep).
    destruct (html2canvas b) as [canvas | e]; cbn in Hin |- *; [| destruct Hin].
    destruct Hin as [<- | []]. cbn. exact Hkeep.
  - cbn in Hin |- *. destruct Hin as [<- | []]. cbn. exact Hkeep.
Qed.

(** C1, at the run that breaks it: a reset that overtakes an update which
    is still waiting for its screenshot leaves the update's on-set-code
    callback with a stale parent version; the callback appends to the
    emptied history, and the result is a reachable world whose only entry
    names itself as parent, so [appHistory] is not a tree. *)
Theorem stale_update_breaks_history_tree :
  forall (b : Element) (canvas : HTMLCanvasElement) (stack : Stack)
         (code : string) (historyTree : list string),
    html2canvas b = Returned canvas ->
    extractHistoryTree [code_create_item "<p>v0</p>"] 0 = Some historyTree ->
    exists w,
      steps (stale_update_run b stack code) initialWorld = Some w
      /\ reachable w
      /\ appHistory (store w) = [ai_edit_item 0 code "make it blue"]
      /\ currentVersion (store w) = Some 0
      /\ history_is_tree (appHistory (store w)) = false.
Proof.
  intros b canvas stack code historyTree Hcanvas Htree.
  assert (Hrun : exists w,
             steps (stale_update_run b stack code) initialWorld = Some w
             /\ appHistory (store w) = [ai_edit_item 0 code "make it blue"]
             /\ currentVersion (store w) = Some 0).
  { unfold stale_update_run, code_create_item in *. cbn.
    rewrite Htree. cbn. rewrite Hcanvas. cbn.
    eexists. split; [reflexivity |]. split; reflexivity. }
  destruct Hrun as (w & Hsteps & Hh & Hcv).
  exists w. repeat split; try assumption.
  - exact (steps_reachable _ reachable_init Hsteps).
  - rewrite Hh. reflexivity.
Qed.

(** The second overtaking run: cancel and reset while the token is still
    awaited. *)
Lemma cancelled_update_breaks_history_tree (stack : Stack) (code : string)
    (historyTree : list string) :
  extractHistoryTree [code_create_item "<p>v0</p>"] 0 = Some historyTree ->
  exists w,
    steps (cancelled_update_run stack code) initialWorld = Some w
    /\ appHistory (store w) = [ai_edit_item 0 code "make it blue"]
    /\ history_is_tree (appHistory (store w)) = false.
Proof.
  intros Htree. unfold cancelled_update_run, code_create_item in *. cbn.
  rewrite Htree. cbn. eexists. split; [reflexivity |]. split; reflexivity.
Qed.

(** ** The stronger invariant of the event loop *)

Lemma generations_app (l1 l2 : list Effect) :
  generations (l1 ++ l2) = generations l1 ++ generations l2.
Proof.
  induction l1 as [| e l1 IH]; [reflexivity |].
  destruct e; cbn; rewrite ?IH; reflexivity.
Qed.

Lemma history_change_refl (h : History) : history_change h h.
Proof. left. reflexivity. Qed.

Ltac split5 := split; [| split; [| split; [| split]]].

Lemma run_nodes (p : Async unit) :
  all_nodes quiet generation_ok p ->
  forall s, store_inv s ->
    store_inv (snd (fst (run p s)))
    /\ appHistory (snd (fst (run p s))) = appHistory s
    /\ currentVersion (snd (fst (run p s))) = currentVersion s
    /\ Forall generation_ok (generations (snd (run p s)))
    /\ match fst (fst (run p s)) with
       | Some q => suspended_inv q
       | None => True
       end.
Proof.
  induction 1 as [a | e | m k Hm Hk IH | k Hk IH | el k Hk IH | g k Hg Hk IH];
    intros s Hs; cbn.
  - split5; auto.
  - split5; auto.
  - destruct Hm as (Hinv & Hframe & Hgen).
    specialize (Hinv s Hs). specialize (Hframe s). specialize (Hgen s).
    unfold store_of, effects_of in *.
    destruct (m s) as [[[[] | e] s1] e1]; cbn in *.
    + specialize (IH s1 Hinv).
      destruct (run k s1) as [[q s2] e2]; cbn in *.
      destruct IH as (I1 & I2 & I3 & I4 & I5).
      destruct Hframe as [F1 F2].
      split5; try assumption; try congruence.
      rewrite generations_app, Hgen. exact I4.
    + destruct Hframe as [F1 F2]. split5; try assumption; auto.
      rewrite Hgen. constructor.
  - split5; auto.
  - split5; auto.
  - specialize (IH s Hs). destruct (run k s) as [[q s2] e2]; cbn in *.
    destruct IH as (I1 & I2 & I3 & I4 & I5).
    split5; try assumption. constructor; assumption.
Qed.

Ltac quiet_frame :=
  split; [intros ? (([? ?] & ? & ?)); repeat split; assumption
         | split; [intros ?; split; reflexivity | intros ?; reflexivity]].

Ltac by_frame Hs :=
  destruct Hs as ((Ht & Hv) & Hn & Hi);
  split; [| split; [apply history_change_refl | reflexivity]];
  (split; [split; [exact Ht | exact Hv] | split; [exact Hn |]]);
  cbn; first [exact Hi | intros; discriminate].

Lemma reset_turn (s : AppSt) : turn_ok reset s.
Proof.
  split; [| split; [right; right; left; reflexivity | reflexivity]].
  split; [| split; intros; reflexivity].
  split; [reflexivity | intros v Hv; discriminate Hv].
Qed.

Lemma cancelCodeGenerationAndReset_turn (r s : AppSt) :
  store_inv s -> turn_ok (cancelCodeGenerationAndReset r) s.
Proof.
  intros Hs. unfold cancelCodeGenerationAndReset.
  destruct (currentVersion r) as [v |]; [| apply reset_turn].
  unfold turn_ok, bind, readHistory, emit, ret. cbn.
  destruct (arr_get (appHistory r) v); by_frame Hs.
Qed.

Lemma cancelCodeGeneration_unfold (r s : AppSt) :
  cancelCodeGeneration r s
    = (result_of (cancelCodeGenerationAndReset r s),
       store_of (cancelCodeGenerationAndReset r s),
       match wsRef s with
       | Some w => [WsClose w USER_CLOSE_WEB_SOCKET_CODE]
       | None => []
       end ++ effects_of (cancelCodeGenerationAndReset r s)).
Proof.
  unfold cancelCodeGeneration, bind, gets, result_of, store_of, effects_of.
  destruct (wsRef s); cbn;
    destruct (cancelCodeGenerationAndReset r s) as [[res s'] e]; reflexivity.
Qed.

Lemma cancelCodeGeneration_turn (r s : AppSt) :
  store_inv s -> turn_ok (cancelCodeGeneration r) s.
Proof.
  intros Hs. destruct (cancelCodeGenerationAndReset_turn r Hs) as (H1 & H2 & H3).
  unfold turn_ok. rewrite cancelCodeGeneration_unfold.
  unfold store_of, effects_of in *. cbn [fst snd] in *.
  split; [exact H1 | split; [exact H2 |]].
  rewrite generations_app, H3. destruct (wsRef s); reflexivity.
Qed.

Lemma importFromCode_turn (code : string) (stack : Stack) (s : AppSt) :
  turn_ok (importFromCode code stack) s.
Proof.
  split; [| split; [| reflexivity]].
  - split; [split; [reflexivity | intros v H] |].
    + cbn in H. injection H as <-. cbn. unfold arr_length. simpl. lia.
    + split; intros H; discriminate H.
  - right; right; right. exists (code_create_item code).
    split; [discriminate | split; reflexivity].
Qed.

Lemma revertToVersion_no_generation (s : AppSt) (index : Z) :
  generations (effects_of (revertToVersion s index s)) = [].
Proof.
  unfold revertToVersion.
  destruct (index <? 0); [reflexivity |].
  destruct (index >=? arr_length (appHistory s)); [reflexivity |].
  unfold bind, readHistory, emit, ret. cbn.
  destruct (arr_get (appHistory s) index); reflexivity.
Qed.

Lemma revertToVersion_turn (s : AppSt) (index : Z) :
  store_inv s -> turn_ok (revertToVersion s index) s.
Proof.
  intros Hs. unfold turn_ok.
  rewrite revertToVersion_store, revertToVersion_no_generation.
  destruct (arr_get (appHistory s) index) as [it |] eqn:E.
  - destruct Hs as ((Ht & Hv) & Hn & Hi).
    split; [| split; [apply history_change_refl | reflexivity]].
    split; [split; [exact Ht |] | split; [| exact Hi]].
    + intros v Hc. cbn in Hc. injection Hc as <-.
      exact (arr_get_Some_range _ _ E).
    + intros Hc. discriminate Hc.
  - split; [exact Hs | split; [apply history_change_refl | reflexivity]].
Qed.

Lemma onSetCode_turn (g : Generation) (code : string) (s : AppSt) :
  store_inv s -> turn_ok (onSetCode g code) s.
Proof.
  intros Hs. pose proof Hs as ((Ht & Hv) & Hn & Hi).
  unfold turn_ok, onSetCode.
  destruct (generationType (gen_params g)).
  - split; [| split; [| reflexivity]].
    + split; [split; [reflexivity | intros v H] | split; [intros H; discriminate H | exact Hi]].
      cbn in H. injection H as <-. cbn. unfold arr_length. simpl. clear. lia.
    + right; right; right.
      exists (ai_create_item code (arr_get (referenceImages (render g)) 0)).
      split; [discriminate | split; reflexivity].
  - destruct (parentVersion g) as [pv |]; cbn.
    + split; [| split; [| reflexivity]].
      * split; [split | split; [intros H; discriminate H | exact Hi]]; cbn.
        -- rewrite forallb_item_typed_app, Ht. reflexivity.
        -- intros v Hc. cbn in Hc. injection Hc as <-.
           cbn. unfold arr_length. rewrite !length_app. simpl length. lia.
      * right; left. eexists. split; [| reflexivity]. reflexivity.
    + clear Ht Hv Hn Hi. by_frame Hs.
Qed.

Lemma quiet_start : quiet (setExecutionConsole [] ;; setAppState CODING).
Proof.
  split; [| split; [intros s; split; reflexivity | intros s; reflexivity]].
  intros s ((Ht & Hv) & Hn & Hi).
  split; [split; assumption | split; [exact Hn | intros H; discriminate H]].
Qed.

Lemma quiet_clear : quiet (setGeneratedCode "" ;; setUpdateInstruction "").
Proof.
  split; [| split; [intros s; split; reflexivity | intros s; reflexivity]].
  intros s ((Ht & Hv) & Hn & Hi).
  split; [split; assumption | split; assumption].
Qed.

Lemma quiet_report (e1 e2 : Effect) :
  generations [e1; e2] = [] -> quiet (emit e1 ;; emit e2).
Proof.
  intros He.
  split; [| split; [intros s; split; reflexivity | intros s; exact He]].
  intros s Hs. exact Hs.
Qed.

Lemma doUpdate_nodes (r : AppSt) (iframeElement : option HTMLIFrameElement) :
  store_inv r -> all_nodes quiet generation_ok (doUpdate r iframeElement).
Proof.
  intros ((Ht & Hv) & Hn & Hi). unfold doUpdate.
  destruct (currentVersion r) as [cv |] eqn:Ecv.
  2:{ constructor; [apply quiet_report; reflexivity | constructor]. }
  destruct (extractHistoryTree (appHistory r) cv) as [historyTree |].
  2:{ constructor; [apply quiet_report; reflexivity | constructor]. }
  assert (Htail : forall p,
            generationType p = update ->
            all_nodes quiet generation_ok
              (await (doGenerateCode r p (Some cv))
                 (fun _ => Sync (setGeneratedCode "" ;; setUpdateInstruction "")
                             (Return tt)))).
  { intros p Hp. cbn. constructor; [apply quiet_start |].
    constructor. intros t. constructor.
    - split; [split; assumption |]. cbn. rewrite Hp.
      split; [symmetry; exact Ecv | discriminate].
    - constructor; [apply quiet_clear | constructor]. }
  destruct (shouldIncludeResultImage r); [| apply Htail; reflexivity].
  destruct iframeElement as [[[[[[b |]]] |]] |]; cbn -[doGenerateCode];
    try (apply Htail; reflexivity).
  constructor. intros c. apply Htail. reflexivity.
Qed.

Lemma dispatch_inv (m : M unit) (w : World) :
  world_inv w -> turn_ok m (store w) ->
  world_inv (dispatch m w)
  /\ history_change (appHistory (store w)) (appHistory (store (dispatch m w))).
Proof.
  intros (Hs & Hg & Hq) (H1 & H2 & H3).
  unfold dispatch, store_of, effects_of in *.
  destruct (m (store w)) as [[res s] e]. cbn in *.
  split; [| exact H2]. unfold world_inv. cbn.
  split; [exact H1 | split; [| exact Hq]].
  rewrite generations_app, H3, app_nil_r. exact Hg.
Qed.

Lemma spawn_inv (p : Async unit) (w : World) :
  world_inv w -> all_nodes quiet generation_ok p ->
  world_inv (spawn p w)
  /\ history_change (appHistory (store w)) (appHistory (store (spawn p w))).
Proof.
  intros (Hs & Hg & Hq) Hp. unfold spawn.
  destruct (run_nodes Hp Hs) as (I1 & I2 & I3 & I4 & I5).
  destruct (run p (store w)) as [[[q |] s] e]; cbn in *;
    (split; [| left; exact I2]); unfold world_inv; cbn;
    (split; [exact I1 | split]);
    try (rewrite generations_app; apply Forall_app; split; assumption).
  - apply Forall_app; split; [exact Hq | constructor; [exact I5 | constructor]].
  - exact Hq.
Qed.

Lemma spawn_doCreate_inv (referenceImages : list string) (w : World) :
  world_inv w -> appState (store w) = INITIAL ->
  world_inv (spawn (doCreate (store w) referenceImages) w)
  /\ appHistory (store (spawn (doCreate (store w) referenceImages) w)) = [].
Proof.
  intros (Hs & Hg & Hq) Hinit. pose proof Hs as (Hok & Hn & Hi).
  unfold spawn, doCreate.
  destruct referenceImages as [| img rest].
  - cbn. split; [| reflexivity]. unfold world_inv. cbn.
    split; [| split; [rewrite app_nil_r; exact Hg | exact Hq]].
    split; [split; [reflexivity | intros v Hv; discriminate Hv] |].
    split; intros; reflexivity.
  - assert (Hlen : (0 <? arr_length (img :: rest)) = true).
    { apply Z.ltb_lt. unfold arr_length. simpl length. lia. }
    rewrite Hlen. cbn. split; [| reflexivity]. unfold world_inv. cbn.
    split; [| split; [rewrite app_nil_r; exact Hg |]].
    + split; [split; [reflexivity | intros v Hv; discriminate Hv] |].
      split; [intros; reflexivity | intros H; discriminate H].
    + apply Forall_app; split; [exact Hq |].
      constructor; [| constructor].
      intros t. constructor; [| constructor].
      split; [exact Hok | split; [reflexivity |]]. cbn. exact (Hi Hinit).
Qed.

Lemma drop_suspended_inv (i : nat) (w : World) :
  world_inv w -> world_inv (drop_suspended i w).
Proof.
  intros (Hs & Hg & Hq).
  split; [exact Hs | split; [exact Hg | apply remove_nth_Forall, Hq]].
Qed.

Lemma suspended_nth_inv (w : World) (i : nat) (q : Suspended) :
  world_inv w -> nth_error (suspended w) i = Some q -> suspended_inv q.
Proof.
  intros (_ & _ & Hq) Hn. rewrite Forall_forall in Hq. apply Hq.
  eapply nth_error_In, Hn.
Qed.

Ltac turn_frame Hs := unfold turn_ok; by_frame Hs.

Lemma step_inv (ev : Event) (w w' : World) :
  world_inv w -> step ev w = Some w' ->
  world_inv w'
  /\ history_change (appHistory (store w)) (appHistory (store w')).
Proof.
  intros Hw. pose proof Hw as (Hs & Hg & Hq). unfold step.
  destruct (rendered (store w) ev) eqn:Hrend; cbn [negb]; [| discriminate].
  destruct ev as [| | iframeElement | | text | checked | imgs | code stack
                  | index | code | stack | st | open | i authToken | i | ws
                  | i token | i code | i line | i | i];
    intros H;
    try (injection H as <-; apply dispatch_inv; [exact Hw |]).
  - apply reset_turn.
  - apply cancelCodeGeneration_turn, Hs.
  - injection H as <-. apply spawn_inv; [exact Hw | apply doUpdate_nodes, Hs].
  - turn_frame Hs.
  - turn_frame Hs.
  - turn_frame Hs.
  - injection H as <-.
    assert (Hinit : appState (store w) = INITIAL).
    { cbn in Hrend. destruct (appState (store w)); [reflexivity | discriminate ..]. }
    destruct (spawn_doCreate_inv imgs Hw Hinit) as [H1 H2].
    split; [exact H1 |]. right; right; left. exact H2.
  - apply importFromCode_turn.
  - apply revertToVersion_turn, Hs.
  - turn_frame Hs.
  - turn_frame Hs.
  - turn_frame Hs.
  - turn_frame Hs.
  - destruct (nth_error (suspended w) i) as [[k | el k] |] eqn:E; try discriminate.
    injection H as <-.
    apply (spawn_inv (w := drop_suspended i w));
      [apply drop_suspended_inv, Hw | apply (suspended_nth_inv i Hw E)].
  - destruct (nth_error (suspended w) i) as [[k | el k] |] eqn:E; try discriminate.
    destruct (html2canvas el) as [canvas | e]; injection H as <-.
    + apply (spawn_inv (w := drop_suspended i w));
        [apply drop_suspended_inv, Hw | apply (suspended_nth_inv i Hw E)].
    + split; [apply drop_suspended_inv, Hw | apply history_change_refl].
  - turn_frame Hs.
  - destruct (nth_error (generations (log w)) i); [| discriminate].
    injection H as <-. apply dispatch_inv; [exact Hw |]. turn_frame Hs.
  - destruct (nth_error (generations (log w)) i) as [g |]; [| discriminate].
    injection H as <-. apply dispatch_inv; [exact Hw |]. apply onSetCode_turn, Hs.
  - destruct (nth_error (generations (log w)) i); [| discriminate].
    injection H as <-. apply dispatch_inv; [exact Hw |]. turn_frame Hs.
  - destruct (nth_error (generations (log w)) i) as [g |]; [| discriminate].
    injection H as <-. apply dispatch_inv; [exact Hw |].
    apply cancelCodeGenerationAndReset_turn, Hs.
  - destruct (nth_error (generations (log w)) i); [| discriminate].
    injection H as <-. apply dispatch_inv; [exact Hw |]. turn_frame Hs.
Qed.

Lemma reachable_inv (w : World) : reachable w -> world_inv w.
Proof.
  induction 1 as [| w w' ev Hr IH Hstep].
  - split; [| split; constructor].
    split; [split; [reflexivity | intros v Hv; discriminate Hv] |].
    split; intros; reflexivity.
  - exact (proj1 (step_inv ev IH Hstep)).
Qed.

(** ** Further properties of [App] *)

(** X1: in every reachable world there is no current version exactly when
    the history is empty. *)
Theorem reachable_current_iff_history :
  forall w : World,
    reachable w ->
    (currentVersion (store w) = None <-> appHistory (store w) = []).
Proof.
  intros w Hr. destruct (reachable_inv Hr) as (((Ht & Hv) & Hn & _) & _).
  split; [exact Hn |].
  intros Hh. destruct (currentVersion (store w)) as [v |] eqn:E; [| reflexivity].
  specialize (Hv v E). rewrite Hh in Hv. unfold arr_length in Hv. simpl in Hv. lia.
Qed.

(** X2: one turn of the loop never edits or removes a single entry of the
    history: from a reachable world it leaves the history as it is,
    appends one [ai_edit] entry, empties it, or replaces it by one
    parentless entry that is no [ai_edit]. *)
Theorem history_append_only :
  forall (w w' : World) (ev : Event),
    reachable w ->
    step ev w = Some w' ->
    history_change (appHistory (store w)) (appHistory (store w')).
Proof.
  intros w w' ev Hr Hstep.
  exact (proj2 (step_inv ev (reachable_inv Hr) Hstep)).
Qed.

Lemma reachable_generation_ok (w : World) (i : nat) (g : Generation) :
  reachable w -> nth_error (generations (log w)) i = Some g -> generation_ok g.
Proof.
  intros Hr Hn. destruct (reachable_inv Hr) as (_ & Hg & _).
  rewrite Forall_forall in Hg. apply Hg. eapply nth_error_In, Hn.
Qed.

(** X3: the generations of a reachable world never take the
    no-parent-version branch of the on-set-code callback: whatever store
    the callback finds, it returns normally without a toast or an
    analytics event, and it leaves a current version that points at the
    last entry of the history. *)
Theorem reachable_onSetCode_has_parent :
  forall (w : World) (i : nat) (g : Generation) (now : AppSt) (code : string),
    reachable w ->
    nth_error (generations (log w)) i = Some g ->
    let out := onSetCode g code now in
    result_of out = Returned tt
    /\ effects_of out = []
    /\ generatedCode (store_of out) = code
    /\ currentVersion (store_of out)
       = Some (arr_length (appHistory (store_of out)) - 1)
    /\ (exists it, arr_get (appHistory (store_of out))
                           (arr_length (appHistory (store_of out)) - 1) = Some it
                   /\ history_types.code it = code).
Proof.
  intros w i g now code Hr Hn out. subst out.
  destruct (reachable_generation_ok i Hr Hn) as (_ & Hpv & Hkind).
  unfold onSetCode.
  destruct (generationType (gen_params g)).
  - cbn. repeat split. eexists. split; reflexivity.
  - destruct (parentVersion g) as [pv |]; [| contradiction Hkind; reflexivity].
    cbn. do 4 (split; [reflexivity |]).
    eexists. split; [apply arr_get_last | reflexivity].
Qed.

(** X4: the on-cancel callback of a generation of a reachable world never
    throws, whatever store it finds: its closure has no current version
    and it resets, or it shows the code that the closure's history holds
    at the closure's current version and moves to CODE_READY, leaving
    every other cell, [appHistory] and [currentVersion] among them, as it
    found it. *)
Theorem reachable_onCancel_safe :
  forall (w : World) (i : nat) (g : Generation) (now : AppSt),
    reachable w ->
    nth_error (generations (log w)) i = Some g ->
    let out := onCancel g now in
    result_of out = Returned tt
    /\ match currentVersion (render g) with
       | None =>
           store_of out
             = {| appState := INITIAL;
                  generatedCode := "";
                  referenceImages := [];
                  executionConsole := [];
                  updateInstruction := "";
                  isImportedFromCode := false;
                  settings := settings now;
                  appHistory := [];
                  currentVersion := None;
                  shouldIncludeResultImage := false;
                  wsRef := wsRef now |}
           /\ effects_of out = []
       | Some v =>
           exists it,
             arr_get (appHistory (render g)) v = Some it
             /\ generatedCode (store_of out) = code it
             /\ appState (store_of out) = CODE_READY
             /\ appHistory (store_of out) = appHistory now
             /\ currentVersion (store_of out) = currentVersion now
             /\ store_of out
                = {| appState := CODE_READY;
                     generatedCode := code it;
                     referenceImages := referenceImages now;
                     executionConsole := executionConsole now;
                     updateInstruction := updateInstruction now;
                     isImportedFromCode := isImportedFromCode now;
                     settings := settings now;
                     appHistory := appHistory now;
                     currentVersion := currentVersion now;
                     shouldIncludeResultImage := shouldIncludeResultImage now;
                     wsRef := wsRef now |}
             /\ effects_of out
                = [HistoryRead (arr_length (appHistory (render g))) v]
       end.
Proof.
  intros w i g now Hr Hn out. subst out.
  destruct (reachable_generation_ok i Hr Hn) as ((_ & Hv) & _ & _).
  unfold onCancel, cancelCodeGenerationAndReset.
  destruct (currentVersion (render g)) as [v |] eqn:Ecv.
  - destruct (arr_get_in_range (appHistory (render g)) (i := v)) as [it E];
      [apply Hv, Ecv |].
    unfold bind, readHistory, emit, ret. cbn. rewrite E. cbn.
    split; [reflexivity |]. exists it. repeat split.
  - repeat split.
Qed.

Lemma doUpdate_exec (r s : AppSt) (iframeElement : option HTMLIFrameElement)
    (tok : option string) (cv : Z) (historyTree : list string) :
  currentVersion r = Some cv ->
  extractHistoryTree (appHistory r) cv = Some historyTree ->
  screenshot_delivered r iframeElement = true ->
  exec tok (doUpdate r iframeElement) s
    = (Returned tt,
       store_of ((setExecutionConsole [] ;; setAppState CODING ;;
                  setGeneratedCode "" ;; setUpdateInstruction "") s),
       [GenerateCode
          (update_generation r cv historyTree
             (if shouldIncludeResultImage r
              then match result_of (exec None (takeScreenshot iframeElement) r) with
                   | Returned png => Some png
                   | Threw _ => None
                   end
              else None) tok)]).
Proof.
  intros Hcv Htree. unfold doUpdate, screenshot_delivered. rewrite Hcv, Htree.
  destruct (shouldIncludeResultImage r); [| reflexivity].
  destruct iframeElement as [[[[[[b |]]] |]] |]; cbn; try reflexivity.
  destruct (html2canvas b) as [canvas | e]; [reflexivity | discriminate].
Qed.

Lemma onChanges_generatedCode (tokens : list string) (s : AppSt) :
  generatedCode (store_of (onChanges tokens s))
    = String.append (generatedCode s) (fold_right String.append "" tokens).
Proof.
  revert s. induction tokens as [| t rest IH]; intros s.
  - cbn. rewrite append_nil_r. reflexivity.
  - cbn [onChanges fold_right]. unfold bind.
    change (onChange t s)
      with (Returned tt,
            store_of (setGeneratedCode (String.append (generatedCode s) t) s),
            @nil Effect).
    cbv iota beta.
    specialize (IH (store_of (setGeneratedCode (String.append (generatedCode s) t) s))).
    unfold store_of in *.
    destruct (onChanges rest _) as [[res s'] e]. cbn in *.
    rewrite IH, append_assoc. reflexivity.
Qed.

(** X5: a create round that is started from the upload screen of a
    reachable world replaces the history, when its code arrives, by one
    parentless [ai_create] entry with that code and makes it the current
    version; the entry's [image_url] is [referenceImages[0]] of the render
    in which [doCreate] was called, where the list is still empty, so it is
    undefined. *)
Theorem create_round_installs_root :
  forall (w : World) (referenceImages : list string) (tok : option string)
         (g : Generation) (now : AppSt) (code : string),
    reachable w ->
    appState (store w) = INITIAL ->
    In g (generations
            (effects_of (exec tok (doCreate (store w) referenceImages) (store w)))) ->
    let out := onSetCode g code now in
    result_of out = Returned tt
    /\ effects_of out = []
    /\ appHistory (store_of out) = [ai_create_item code None]
    /\ currentVersion (store_of out) = Some 0
    /\ generatedCode (store_of out) = code
    /\ history_is_tree (appHistory (store_of out)) = true.
Proof.
  intros w imgs tok g now code Hr Hinit Hin out. subst out.
  destruct (reachable_inv Hr) as ((_ & _ & Hi) & _).
  specialize (Hi Hinit). unfold doCreate in Hin.
  destruct imgs as [| img rest]; [destruct Hin |].
  assert (Hlen : (0 <? arr_length (img :: rest)) = true).
  { apply Z.ltb_lt. unfold arr_length. simpl length. lia. }
  rewrite Hlen in Hin. cbn in Hin. destruct Hin as [<- | []].
  unfold onSetCode. cbn. rewrite Hi. repeat split.
Qed.

(** X6: reverting to a version and then updating branches the history:
    the update started from the reverted store is requested with that
    version as parent, and its on-set-code callback appends an [ai_edit]
    child of that version at the end of the history, makes it current, and
    keeps a tree a tree. *)
Theorem revert_then_update_branches :
  forall (s : AppSt) (index : Z) (it : HistoryItem) (historyTree : list string)
         (iframeElement : option HTMLIFrameElement) (tok : option string)
         (code : string),
    arr_get (appHistory s) index = Some it ->
    extractHistoryTree (appHistory s) index = Some historyTree ->
    let s1 := store_of (revertToVersion s index s) in
    screenshot_delivered s1 iframeElement = true ->
    let run1 := exec tok (doUpdate s1 iframeElement) s1 in
    exists g,
      generations (effects_of run1) = [g]
      /\ parentVersion g = Some index
      /\ appHistory (store_of (onSetCode g code (store_of run1)))
         = appHistory s ++ [ai_edit_item index code (updateInstruction s)]
      /\ currentVersion (store_of (onSetCode g code (store_of run1)))
         = Some (arr_length (appHistory s))
      /\ (history_is_tree (appHistory s) = true ->
          history_is_tree
            (appHistory (store_of (onSetCode g code (store_of run1)))) = true).
Proof.
  intros s index it historyTree iframeElement tok code Hit Htree s1 Hdel run1.
  subst s1 run1. rewrite revertToVersion_store, Hit in *.
  set (s1 := store_of ((setCurrentVersion (Some index) ;;
                        setGeneratedCode (history_types.code it)) s)) in *.
  assert (Hcv : currentVersion s1 = Some index) by reflexivity.
  assert (Hh : extractHistoryTree (appHistory s1) index = Some historyTree)
    by exact Htree.
  rewrite (doUpdate_exec s1 s1 iframeElement tok Hcv Hh Hdel).
  eexists. split; [reflexivity |]. split; [reflexivity |].
  cbn. split; [reflexivity |]. split.
  - f_equal. unfold arr_length. rewrite length_app. simpl length. lia.
  - intros Ht. apply arr_get_Some_range in Hit.
    unfold history_is_tree in *. apply andb_true_iff in Ht as [Ht1 Ht2].
    fold (ai_edit_item index code (updateInstruction s)).
    rewrite forallb_item_typed_app, parents_precede_from_app, Ht1, Ht2. cbn.
    apply andb_true_iff; split; [apply Z.leb_le | apply Z.ltb_lt]; lia.
Qed.

(** X7: both kinds of round stream into an empty display: once [doCreate]
    has run, or [doUpdate] has requested its generation, the on-change
    callbacks for [tokens] leave exactly the tokens in arrival order as
    the displayed code, whatever was displayed before. *)
Theorem streaming_starts_empty :
  forall (r s : AppSt) (referenceImages tokens : list string)
         (iframeElement : option HTMLIFrameElement) (tok : option string),
    generatedCode
      (store_of (onChanges tokens
                   (store_of (exec tok (doCreate r referenceImages) s))))
      = fold_right String.append "" tokens
    /\ (forall cv historyTree,
          currentVersion r = Some cv ->
          extractHistoryTree (appHistory r) cv = Some historyTree ->
          screenshot_delivered r iframeElement = true ->
          generatedCode
            (store_of (onChanges tokens
                         (store_of (exec tok (doUpdate r iframeElement) s))))
            = fold_right String.append "" tokens).
Proof.
  intros r s imgs tokens iframeElement tok. split.
  - rewrite onChanges_generatedCode.
    assert (H : generatedCode (store_of (exec tok (doCreate r imgs) s)) = "").
    { unfold doCreate.
      destruct (0 <? arr_length imgs); reflexivity. }
    rewrite H. reflexivity.
  - intros cv historyTree Hcv Htree Hdel.
    rewrite onChanges_generatedCode.
    rewrite (doUpdate_exec r s iframeElement tok Hcv Htree Hdel). reflexivity.
Qed.

Lemma slice_last_snoc (A : Type) (l : list A) (x : A) :
  slice_last (l ++ [x]) = Some x.
Proof.
  induction l as [| y l IH]; [reflexivity |].
  cbn [app slice_last]. rewrite IH.
  destruct (l ++ [x]) eqn:E; [| reflexivity].
  destruct l; discriminate E.
Qed.

Lemma onStatusUpdates_console (lines : list string) (s : AppSt) :
  executionConsole (store_of (onStatusUpdates lines s))
    = executionConsole s ++ lines.
Proof.
  revert s. induction lines as [| line rest IH]; intros s.
  - cbn. rewrite app_nil_r. reflexivity.
  - cbn [onStatusUpdates]. unfold bind.
    change (onStatusUpdate line s)
      with (Returned tt,
            store_of (setExecutionConsole (executionConsole s ++ [line]) s),
            @nil Effect).
    cbv iota beta.
    specialize (IH (store_of (setExecutionConsole (executionConsole s ++ [line]) s))).
    unfold store_of in *.
    destruct (onStatusUpdates rest _) as [[res s'] e]. cbn in *.
    rewrite IH, <- app_assoc. reflexivity.
Qed.

(** X8: [doGenerateCode] empties the console, so after the status lines
    of a generation the console holds exactly these lines in arrival
    order, and the line shown next to the spinner is the last of them:
    nothing before the first line, and the newest line after each one. *)
Theorem shown_status_is_newest_line :
  forall (r s : AppSt) (p : CodeGenerationParams) (pv : option Z)
         (tok : option string) (lines : list string) (line : string),
    let started := store_of (exec tok (doGenerateCode r p pv) s) in
    executionConsole (store_of (onStatusUpdates lines started)) = lines
    /\ shown_status (store_of (onStatusUpdates lines started)) = slice_last lines
    /\ shown_status started = None
    /\ shown_status (store_of (onStatusUpdates (lines ++ [line]) started))
       = Some line.
Proof.
  intros r s p pv tok lines line started. subst started.
  assert (H : forall l,
            executionConsole
              (store_of (onStatusUpdates l
                           (store_of (exec tok (doGenerateCode r p pv) s)))) = l).
  { intros l. rewrite onStatusUpdates_console. reflexivity. }
  unfold shown_status. rewrite !H. repeat split. apply slice_last_snoc.
Qed.

Lemma nth_error_snoc (A : Type) (l : list A) (x : A) :
  nth_error (l ++ [x]) (length l) = Some x.
Proof. rewrite nth_error_app2 by lia. rewrite Nat.sub_diag. reflexivity. Qed.

Lemma remove_nth_snoc (A : Type) (l : list A) (x : A) :
  remove_nth (length l) (l ++ [x]) = l.
Proof.
  induction l as [| y l IH]; [reflexivity |]. cbn. rewrite IH. reflexivity.
Qed.

(** X9: a request is built from the render in which its round was
    started, not from the store that is current when the token arrives.
    From the upload screen, let the user submit images, save other settings
    while [doGenerateCode] awaits [getToken()], and let the token arrive:
    the loop accepts all three events, the store then holds the new
    settings, is CODING with an empty console, and exactly one request has
    been added to the log; that request is of type create for the first
    image, carries the settings of the click, and its [authToken] is what
    [getToken()] gave, left out when that is null or the empty string. *)
Theorem request_keeps_settings_of_click :
  forall (w : World) (img : string) (rest : list string)
         (st : Settings Stack) (tok : option string),
    appState (store w) = INITIAL ->
    exists w' g,
      steps [SubmitImages (img :: rest);
             SaveSettings st;
             GetTokenSettled (length (suspended w)) tok] w = Some w'
      /\ log w' = log w ++ [GenerateCode g]
      /\ suspended w' = suspended w
      /\ settings (store w') = st
      /\ appState (store w') = CODING
      /\ executionConsole (store w') = []
      /\ referenceImages (store w') = img :: rest
      /\ render g = store w
      /\ settings_of (request g) = settings (store w)
      /\ generationType (params (request g)) = create
      /\ image (params (request g)) = Some img
      /\ authToken (params (request g))
         = match tok with
           | Some t => if String.eqb t "" then None else Some t
           | None => None
           end
      /\ authToken (params (request g)) <> Some "".
Proof.
  intros w img rest st tok Hinit.
  assert (Hlen : (0 <? arr_length (img :: rest)) = true).
  { apply Z.ltb_lt. unfold arr_length. simpl length. lia. }
  cbn [steps]. unfold step at 1. cbn [rendered]. rewrite Hinit. cbn [is_INITIAL negb].
  unfold spawn at 1, doCreate. rewrite Hlen. cbn.
  rewrite nth_error_snoc. unfold drop_suspended. cbn.
  rewrite remove_nth_snoc, !app_nil_r.
  eexists. eexists. split; [reflexivity |]. cbn.
  repeat split.
  destruct tok as [t |]; cbn; [| discriminate].
  destruct (String.eqb_spec t ""); [discriminate | congruence].
Qed.

(** X10: importing code and then asking for an update sends a request
    that says so: it is of type update, flagged as imported from code,
    for the imported stack, with the history extracted from the single
    [code_create] entry followed by the instruction, and its parent is
    version 0. *)
Theorem import_then_update_request :
  forall (s : AppSt) (code instruction : string) (stack : Stack)
         (iframeElement : option HTMLIFrameElement) (tok : option string)
         (historyTree : list string),
    let s1 := store_of ((importFromCode code stack ;;
                         setUpdateInstruction instruction) s) in
    extractHistoryTree [code_create_item code] 0 = Some historyTree ->
    screenshot_delivered s1 iframeElement = true ->
    exists g,
      generations (effects_of (exec tok (doUpdate s1 iframeElement) s1)) = [g]
      /\ parentVersion g = Some 0
      /\ generationType (params (request g)) = update
      /\ types.isImportedFromCode (params (request g)) = Some true
      /\ generatedCodeConfig (settings_of (request g)) = stack
      /\ history (params (request g)) = Some (historyTree ++ [instruction]).
Proof.
  intros s code instruction stack iframeElement tok historyTree s1 Htree Hdel.
  assert (Hcv : currentVersion s1 = Some 0) by reflexivity.
  assert (Hh : extractHistoryTree (appHistory s1) 0 = Some historyTree)
    by exact Htree.
  rewrite (doUpdate_exec s1 s1 iframeElement tok Hcv Hh Hdel).
  eexists. split; [reflexivity |]. repeat split.
Qed.

(** X11: cancelling an update round puts the current version back on
    display: after [doUpdate] from a reachable world and any streamed
    tokens, [cancelCodeGeneration] shows the code of the version that was
    current, moves to CODE_READY and keeps history and current version;
    the instruction the user had typed stays cleared. *)
Theorem cancel_after_streaming_restores_version :
  forall (w : World) (iframeElement : option HTMLIFrameElement)
         (tok : option string) (tokens : list string)
         (cv : Z) (historyTree : list string),
    reachable w ->
    currentVersion (store w) = Some cv ->
    extractHistoryTree (appHistory (store w)) cv = Some historyTree ->
    screenshot_delivered (store w) iframeElement = true ->
    let streamed :=
      store_of (onChanges tokens
                  (store_of (exec tok (doUpdate (store w) iframeElement) (store w)))) in
    let out := cancelCodeGeneration streamed streamed in
    exists it,
      arr_get (appHistory (store w)) cv = Some it
      /\ result_of out = Returned tt
      /\ generatedCode (store_of out) = code it
      /\ appState (store_of out) = CODE_READY
      /\ appHistory (store_of out) = appHistory (store w)
      /\ currentVersion (store_of out) = Some cv
      /\ updateInstruction (store_of out) = "".
Proof.
  intros w iframeElement tok tokens cv historyTree Hr Hcv Htree Hdel streamed out.
  destruct (arr_get_in_range (appHistory (store w)) (i := cv)) as [it E];
    [apply (reachable_currentVersion_valid Hr), Hcv |].
  exists it. split; [exact E |].
  assert (Hs : forall toks s0,
            appHistory (store_of (onChanges toks s0)) = appHistory s0
            /\ currentVersion (store_of (onChanges toks s0)) = currentVersion s0
            /\ updateInstruction (store_of (onChanges toks s0)) = updateInstruction s0
            /\ wsRef (store_of (onChanges toks s0)) = wsRef s0).
  { induction toks as [| t rest IH]; intros s0; [repeat split |].
    cbn [onChanges]. unfold bind.
    change (onChange t s0)
      with (Returned tt,
            store_of (setGeneratedCode (String.append (generatedCode s0) t) s0),
            @nil Effect).
    cbv iota beta.
    specialize (IH (store_of (setGeneratedCode (String.append (generatedCode s0) t) s0))).
    unfold store_of in *.
    destruct (onChanges rest _) as [[res s'] e]. cbn in *. exact IH. }
  subst out streamed.
  pose (s1 := store_of ((setExecutionConsole [] ;; setAppState CODING ;;
                         setGeneratedCode "" ;; setUpdateInstruction "") (store w))).
  assert (Hexec : store_of (exec tok (doUpdate (store w) iframeElement) (store w)) = s1).
  { rewrite (doUpdate_exec (store w) (store w) iframeElement tok Hcv Htree Hdel).
    reflexivity. }
  rewrite Hexec.
  destruct (Hs tokens s1) as (Hh & Hc & Hu & Hws).
  set (s2 := store_of (onChanges tokens s1)) in *.
  assert (Hh2 : appHistory s2 = appHistory (store w)) by (rewrite Hh; reflexivity).
  assert (Hc2 : currentVersion s2 = Some cv) by (rewrite Hc; exact Hcv).
  rewrite cancelCodeGeneration_unfold.
  unfold cancelCodeGenerationAndReset. rewrite Hc2.
  unfold bind, readHistory, emit, ret, result_of, store_of. cbn.
  rewrite Hh2, E. cbn. repeat split; assumption.
Qed.

End App.

Arguments ToastError {Stack} msg.
Arguments AddEvent {Stack} name.
Arguments WsClose {Stack} ws code.
Arguments HistoryRead {Stack} len index.
Arguments ClickReset {Stack}.
Arguments ClickCancel {Stack}.
Arguments ClickUpdate {Stack} iframeElement.
Arguments ClickDownload {Stack}.
Arguments TypeInstruction {Stack} text.
Arguments SwitchIncludeResultImage {Stack} checked.
Arguments SubmitImages {Stack} referenceImages.
Arguments SelectVersion {Stack} index.
Arguments EditCode {Stack} code.
Arguments TermsDialogOpenChange {Stack} open.
Arguments GetTokenSettled {Stack} i authToken.
Arguments Html2canvasSettled {Stack} i.
Arguments WsRefAssigned {Stack} ws.
Arguments WsOnChange {Stack} i token.
Arguments WsOnSetCode {Stack} i code.
Arguments WsOnStatusUpdate {Stack} i line.
Arguments WsOnCancel {Stack} i.
Arguments WsOnComplete {Stack} i.

(** ** AppContainer *)

Lemma appContainer_flight_step (ev : AppContainer.Event) (st st' : AppContainer.St) :
  ((AppContainer.inFlight st <= 1)%nat
   /\ (AppContainer.inFlight st = 1%nat ->
       AppContainer.isInitRequestInProgress st = true)) ->
  AppContainer.step ev st = Some st' ->
  (AppContainer.inFlight st' <= 1)%nat
  /\ (AppContainer.inFlight st' = 1%nat ->
      AppContainer.isInitRequestInProgress st' = true).
Proof.
  intros [Hle Hflag] Hstep. destruct ev as [isSignedIn isLoaded | | user |]; cbn in Hstep.
  - injection Hstep as <-. unfold AppContainer.popupEffect.
    destruct (isLoaded && _); cbn; split; assumption.
  - injection Hstep as <-. unfold AppContainer.init.
    destruct (AppContainer.isInitRequestInProgress st) eqn:E; cbn.
    + split; [assumption | intros _; congruence].
    + destruct (AppContainer.inFlight st) as [| [| n]] eqn:En; cbn.
      * split; [lia | reflexivity].
      * specialize (Hflag eq_refl). congruence.
      * lia.
  - destruct (AppContainer.inFlight st) as [| n] eqn:En; [discriminate |].
    injection Hstep as <-. cbn. rewrite En. cbn. split; lia.
  - destruct (AppContainer.inFlight st) as [| n] eqn:En; [discriminate |].
    injection Hstep as <-. cbn. rewrite En. cbn. split; lia.
Qed.

Lemma appContainer_flight_steps (evs : list AppContainer.Event)
    (st0 st : AppContainer.St) :
  ((AppContainer.inFlight st0 <= 1)%nat
   /\ (AppContainer.inFlight st0 = 1%nat ->
       AppContainer.isInitRequestInProgress st0 = true)) ->
  AppContainer.steps evs st0 = Some st ->
  (AppContainer.inFlight st <= 1)%nat
  /\ (AppContainer.inFlight st = 1%nat ->
      AppContainer.isInitRequestInProgress st = true).
Proof.
  revert st0 st. induction evs as [| ev evs IH]; intros st0 st H0 Hs; cbn in Hs.
  - injection Hs as <-. exact H0.
  - destruct (AppContainer.step ev st0) as [st1 |] eqn:E; [| discriminate].
    apply (IH st1 st); [eapply appContainer_flight_step; eassumption | exact Hs].
Qed.

Lemma appContainer_flight_mount (tier : string) :
  (AppContainer.inFlight (AppContainer.mount tier) <= 1)%nat
  /\ (AppContainer.inFlight (AppContainer.mount tier) = 1%nat ->
      AppContainer.isInitRequestInProgress (AppContainer.mount tier) = true).
Proof. cbn. split; [lia | discriminate]. Qed.

(** X12: however often [init] runs, at most one POST to /users/create is
    in flight, and while one is in flight the in-progress flag is set. *)
Theorem appContainer_single_flight :
  forall (tier : string) (evs : list AppContainer.Event) (st : AppContainer.St),
    AppContainer.steps evs (AppContainer.mount tier) = Some st ->
    (AppContainer.inFlight st <= 1)%nat
    /\ (AppContainer.inFlight st = 1%nat ->
        AppContainer.isInitRequestInProgress st = true).
Proof.
  intros tier evs st Hs.
  eapply appContainer_flight_steps; [apply appContainer_flight_mount | exact Hs].
Qed.

(** X13: a rejected fetch is never retried: the in-progress flag is
    cleared only after a resolved fetch, so once the only fetch in flight
    has rejected, no later run of [init] sends a request and the
    subscriber tier is never written again. *)
Theorem appContainer_rejection_wedges :
  forall (tier : string) (before after : list AppContainer.Event)
         (st1 st2 st3 : AppContainer.St),
    AppContainer.steps before (AppContainer.mount tier) = Some st1 ->
    AppContainer.step AppContainer.FetchRejected st1 = Some st2 ->
    AppContainer.steps after st2 = Some st3 ->
    AppContainer.sent st3 = AppContainer.sent st2
    /\ AppContainer.subscriberTier st3 = AppContainer.subscriberTier st2
    /\ AppContainer.isInitRequestInProgress st3 = true
    /\ AppContainer.inFlight st3 = 0%nat.
Proof.
  intros tier before after st1 st2 st3 H1 H2 H3.
  destruct (@appContainer_flight_steps before _ st1 (appContainer_flight_mount tier) H1)
    as [Hle Hflag].
  assert (Hw : AppContainer.isInitRequestInProgress st2 = true
               /\ AppContainer.inFlight st2 = 0%nat).
  { cbn in H2. destruct (AppContainer.inFlight st1) as [| n] eqn:En; [discriminate |].
    injection H2 as <-. cbn. rewrite En. cbn.
    assert (n = 0%nat) by lia. subst n. split; [apply Hflag; reflexivity | reflexivity]. }
  clear H1 H2 Hle Hflag st1.
  revert st2 H3 Hw. induction after as [| ev evs IH]; intros st2 H3 [Hf Hn]; cbn in H3.
  - injection H3 as <-. repeat split; assumption.
  - destruct ev as [isSignedIn isLoaded | | user |]; cbn in H3.
    + assert (Hp : AppContainer.isInitRequestInProgress
                     (AppContainer.popupEffect isSignedIn isLoaded st2) = true
                   /\ AppContainer.inFlight
                        (AppContainer.popupEffect isSignedIn isLoaded st2) = 0%nat
                   /\ AppContainer.sent
                        (AppContainer.popupEffect isSignedIn isLoaded st2)
                      = AppContainer.sent st2
                   /\ AppContainer.subscriberTier
                        (AppContainer.popupEffect isSignedIn isLoaded st2)
                      = AppContainer.subscriberTier st2).
      { unfold AppContainer.popupEffect. destruct (isLoaded && _); cbn; auto. }
      destruct Hp as (P1 & P2 & P3 & P4).
      destruct (IH _ H3 (conj P1 P2)) as (I1 & I2 & I3 & I4).
      repeat split; congruence.
    + unfold AppContainer.init in H3. rewrite Hf in H3.
      exact (IH _ H3 (conj Hf Hn)).
    + rewrite Hn in H3. discriminate.
    + rewrite Hn in H3. discriminate.
Qed.

(** X14: the sign-up popup never closes: after any events it is open
    exactly when it was open before or some run of the effect saw Clerk
    loaded with nobody signed in; signing in later does not close it. *)
Theorem appContainer_popup_never_closes :
  forall (evs : list AppContainer.Event) (st st' : AppContainer.St),
    AppContainer.steps evs st = Some st' ->
    AppContainer.showPopup st'
      = AppContainer.showPopup st || AppContainer.saw_signed_out evs.
Proof.
  induction evs as [| ev evs IH]; intros st st' H; cbn in H.
  - injection H as <-. cbn. rewrite orb_false_r. reflexivity.
  - destruct (AppContainer.step ev st) as [st1 |] eqn:E; [| discriminate].
    rewrite (IH st1 st' H).
    destruct ev as [isSignedIn isLoaded | | user |]; cbn in E |- *.
    + injection E as <-. unfold AppContainer.popupEffect.
      destruct (isLoaded && _); cbn.
      * rewrite orb_true_r. reflexivity.
      * reflexivity.
    + injection E as <-. unfold AppContainer.init.
      destruct (AppContainer.isInitRequestInProgress st); reflexivity.
    + destruct (AppContainer.inFlight st); [discriminate |].
      injection E as <-. reflexivity.
    + destruct (AppContainer.inFlight st); [discriminate |].
      injection E as <-. reflexivity.
Qed.

(** X15: the subscriber tier in the store is never made empty: a resolved
    fetch whose [subscriber_tier] is missing or empty stores "free", any
    other stores the tier it carries, and nothing else writes the cell;
    so a tier that is not empty at mount is not empty in any later
    state. *)
Theorem appContainer_tier_never_empty :
  forall (tier : string) (evs : list AppContainer.Event) (st : AppContainer.St),
    tier <> "" ->
    AppContainer.steps evs (AppContainer.mount tier) = Some st ->
    AppContainer.subscriberTier st <> ""
    /\ (forall user st',
          AppContainer.step (AppContainer.FetchResolved user) st = Some st' ->
          AppContainer.subscriberTier st'
            = match AppContainer.subscriber_tier user with
              | Some t => if String.eqb t "" then "free" else t
              | None => "free"
              end).
Proof.
  intros tier evs st Htier Hs. split.
  - assert (H : forall st0 st1,
              AppContainer.subscriberTier st0 <> "" ->
              AppContainer.steps evs st0 = Some st1 ->
              AppContainer.subscriberTier st1 <> "").
    { clear Hs st. induction evs as [| ev evs IH]; intros st0 st1 H0 Hs; cbn in Hs.
      - injection Hs as <-. exact H0.
      - destruct (AppContainer.step ev st0) as [st2 |] eqn:E; [| discriminate].
        apply (IH st2 st1); [| exact Hs].
        destruct ev as [isSignedIn isLoaded | | user |]; cbn in E.
        + injection E as <-. unfold AppContainer.popupEffect.
          destruct (isLoaded && _); exact H0.
        + injection E as <-. unfold AppContainer.init.
          destruct (AppContainer.isInitRequestInProgress st0); exact H0.
        + destruct (AppContainer.inFlight st0); [discriminate |].
          injection E as <-. cbn.
          destruct (AppContainer.subscriber_tier user) as [t |]; cbn; [| discriminate].
          destruct (String.eqb_spec t ""); [discriminate | assumption].
        + destruct (AppContainer.inFlight st0); [discriminate |].
          injection E as <-. exact H0. }
    apply (H (AppContainer.mount tier) st); [exact Htier | exact Hs].
  - intros user st' E. cbn in E.
    destruct (AppContainer.inFlight st); [discriminate |].
    injection E as <-. cbn.
    destruct (AppContainer.subscriber_tier user) as [t |]; cbn; [| reflexivity].
    destruct (String.eqb t ""); reflexivity.
Qed.

(** ** The theorems at concrete inputs *)

Local Abbreviation sample_doUpdate :=
  (@doUpdate string sample_extractHistoryTree sample_toDataURL).
Local Abbreviation sample_exec :=
  (exec (Stack := string) sample_html2canvas).
Local Abbreviation sample_initialWorld := (@initialWorld string "html_tailwind").
Local Abbreviation sample_initialState := (@initialState string "html_tailwind").
Local Abbreviation sample_steps :=
  (@steps string 4333 sample_extractHistoryTree sample_html2canvas sample_toDataURL).
Local Abbreviation sample_reachable :=
  (@reachable string "html_tailwind" 4333 sample_extractHistoryTree
     sample_html2canvas sample_toDataURL).
Local Abbreviation sample_store :=
  (@imported_store string "html_tailwind" "<p>v0</p>" "html_tailwind" "make it blue").

Lemma stale_update_breaks_history_tree_witness :
  sample_html2canvas (NodeRef 7) = Returned (CanvasRef 7)
  /\ sample_extractHistoryTree [code_create_item "<p>v0</p>"] 0 = Some ["<p>v0</p>"]
  /\ exists w,
       sample_steps (stale_update_run (NodeRef 7) "html_tailwind" "<p>v1</p>")
                    sample_initialWorld = Some w
       /\ sample_reachable w
       /\ appHistory (store w) = [ai_edit_item 0 "<p>v1</p>" "make it blue"]
       /\ currentVersion (store w) = Some 0
       /\ history_is_tree (appHistory (store w)) = false.
Proof.
  split; [reflexivity |]. split; [reflexivity |].
  apply (@stale_update_breaks_history_tree string "html_tailwind" 4333
           sample_extractHistoryTree sample_html2canvas sample_toDataURL
           (NodeRef 7) (CanvasRef 7) "html_tailwind" "<p>v1</p>" ["<p>v0</p>"]);
    reflexivity.
Defined.

Lemma doUpdate_request_history_witness :
  currentVersion sample_store = Some 0
  /\ sample_extractHistoryTree (appHistory sample_store) 0 = Some ["<p>v0</p>"]
  /\ map (fun g => history (params (request g)))
         (generations
            (effects_of (sample_exec None (sample_doUpdate sample_store None)
                                     sample_store)))
     = [Some ["<p>v0</p>"; "make it blue"]].
Proof.
  split; [reflexivity |]. split; [reflexivity |].
  apply (@doUpdate_request_history string sample_extractHistoryTree
           sample_html2canvas sample_toDataURL sample_store None None
           0 ["<p>v0</p>"]); reflexivity.
Defined.

Lemma onSetCode_update_appends_witness :
  let g := update_generation sample_store 0 ["<p>v0</p>"] None None in
  let out := onSetCode g "<p>v1</p>" sample_store in
  currentVersion sample_store = Some 0
  /\ sample_extractHistoryTree (appHistory sample_store) 0 = Some ["<p>v0</p>"]
  /\ In g (generations
             (effects_of (sample_exec None (sample_doUpdate sample_store None)
                                      sample_store)))
  /\ appHistory (store_of out)
     = [code_create_item "<p>v0</p>"; ai_edit_item 0 "<p>v1</p>" "make it blue"]
  /\ currentVersion (store_of out) = Some 1.
Proof.
  intros g out.
  assert (Hcv : currentVersion sample_store = Some 0) by (vm_compute; reflexivity).
  assert (Htree : sample_extractHistoryTree (appHistory sample_store) 0
                  = Some ["<p>v0</p>"]) by (vm_compute; reflexivity).
  assert (Hgen : generations
             (effects_of (sample_exec None (sample_doUpdate sample_store None)
                                      sample_store)) = [g])
    by (vm_compute; reflexivity).
  assert (Hin : In g (generations
             (effects_of (sample_exec None (sample_doUpdate sample_store None)
                                      sample_store))))
    by (rewrite Hgen; left; reflexivity).
  destruct (@onSetCode_update_appends string sample_extractHistoryTree
              sample_html2canvas sample_toDataURL sample_store None None
              0 ["<p>v0</p>"] g sample_store "<p>v1</p>" Hcv Htree Hin)
    as (_ & _ & Hh & Hc & _).
  split; [exact Hcv |]. split; [exact Htree |]. split; [exact Hin |].
  split.
  - etransitivity; [exact Hh |]. vm_compute. reflexivity.
  - etransitivity; [exact Hc |]. vm_compute. reflexivity.
Defined.

Lemma doUpdate_failure_atomic_witness :
  (exists w,
     sample_steps [SubmitImages ["data:image/png;base64,AA"];
                   GetTokenSettled 0 None;
                   WsOnComplete 0] sample_initialWorld = Some w
     /\ rendered (store w) (ClickUpdate None) = true
     /\ currentVersion (store w) = None
     /\ sample_exec None (sample_doUpdate (store w) None) (store w)
        = (Returned tt, store w,
           [ToastError "No current version set. Contact support or open a Github issue.";
            AddEvent "CurrentVersionNull"]))
  /\ (exists w,
        @steps string 4333 (fun _ _ => None) sample_html2canvas sample_toDataURL
          [SubmitCode "<p>v0</p>" "html_tailwind"; TypeInstruction "make it blue"]
          sample_initialWorld = Some w
        /\ rendered (store w) (ClickUpdate None) = true
        /\ currentVersion (store w) = Some 0
        /\ store_of (sample_exec None
                       (@doUpdate string (fun _ _ => None) sample_toDataURL
                          (store w) None) (store w))
           = store w
        /\ generations
             (effects_of (sample_exec None
                            (@doUpdate string (fun _ _ => None) sample_toDataURL
                               (store w) None) (store w)))
           = []).
Proof.
  split.
  - eexists. split; [vm_compute; reflexivity |].
    split; [vm_compute; reflexivity |]. split; [vm_compute; reflexivity |].
    match goal with
    | |- sample_exec None (sample_doUpdate (store ?w) None) (store ?w) = _ =>
        assert (H : currentVersion (store w) = None
                    \/ exists cv, currentVersion (store w) = Some cv
                                  /\ sample_extractHistoryTree
                                       (appHistory (store w)) cv = None)
          by (left; vm_compute; reflexivity);
        destruct (@doUpdate_failure_atomic string sample_extractHistoryTree
                    sample_html2canvas sample_toDataURL (store w) None None H)
          as (Hr & Hs & _ & _ & He)
    end.
    unfold result_of, store_of, effects_of in Hr, Hs, He.
    destruct (sample_exec None _ _) as [[res s'] e]. cbn in Hr, Hs, He.
    subst res s'. rewrite He. reflexivity.
  - eexists. split; [vm_compute; reflexivity |].
    split; [vm_compute; reflexivity |]. split; [vm_compute; reflexivity |].
    match goal with
    | |- store_of (sample_exec None (@doUpdate _ ?ex _ (store ?w) None) _) = _ /\ _ =>
        assert (H : currentVersion (store w) = None
                    \/ exists cv, currentVersion (store w) = Some cv
                                  /\ ex (appHistory (store w)) cv = None)
          by (right; exists 0; split; vm_compute; reflexivity);
        destruct (@doUpdate_failure_atomic string ex
                    sample_html2canvas sample_toDataURL (store w) None None H)
          as (_ & Hs & Hg & _)
    end.
    split; [exact Hs | exact Hg].
Defined.


Lemma takeScreenshot_spec_witness :
  sample_exec None
    (@takeScreenshot string sample_toDataURL None) sample_initialState
    = (Returned "", sample_initialState, [])
  /\ sample_exec None
       (@takeScreenshot string sample_toDataURL (Some (iframe_with_body (NodeRef 7))))
       sample_initialState
     = (Returned "data:image/png;base64,", sample_initialState, []).
Proof.
  split.
  - apply (proj1 (@takeScreenshot_spec string sample_html2canvas sample_toDataURL
                    None None sample_initialState)).
    left. reflexivity.
  - apply (proj2 (@takeScreenshot_spec string sample_html2canvas sample_toDataURL
                    (Some (iframe_with_body (NodeRef 7))) None sample_initialState)
             (iframe_with_body (NodeRef 7))
             {| document := {| body := Some (NodeRef 7) |} |}
             (NodeRef 7) (CanvasRef 7)); reflexivity.
Defined.

Lemma sample_world_reachable (evs : list (Event string)) (w : World string) :
  sample_steps evs sample_initialWorld = Some w -> sample_reachable w.
Proof.
  intros H.
  exact (@steps_reachable string "html_tailwind" 4333 sample_extractHistoryTree
           sample_html2canvas sample_toDataURL evs sample_initialWorld w
           (reachable_init _ _ _ _ _) H).
Qed.

Local Abbreviation sample_update_started :=
  [SubmitCode "<p>v0</p>" "html_tailwind";
   TypeInstruction "make it blue";
   ClickUpdate None;
   GetTokenSettled 0 None].

Lemma reachable_current_iff_history_witness :
  exists w,
    sample_steps [SubmitCode "<p>v0</p>" "html_tailwind"; ClickReset]
                 sample_initialWorld = Some w
    /\ (currentVersion (store w) = None <-> appHistory (store w) = []).
Proof.
  eexists. split; [vm_compute; reflexivity |].
  apply (@reachable_current_iff_history string "html_tailwind" 4333
           sample_extractHistoryTree sample_html2canvas sample_toDataURL).
  apply (@sample_world_reachable
           [SubmitCode "<p>v0</p>" "html_tailwind"; ClickReset]).
  vm_compute. reflexivity.
Defined.

Lemma history_append_only_witness :
  exists w w',
    sample_steps sample_update_started sample_initialWorld = Some w
    /\ step 4333 sample_extractHistoryTree sample_html2canvas sample_toDataURL
            (WsOnSetCode 0 "<p>v1</p>") w = Some w'
    /\ history_change (appHistory (store w)) (appHistory (store w'))
    /\ appHistory (store w')
       = [code_create_item "<p>v0</p>"; ai_edit_item 0 "<p>v1</p>" "make it blue"].
Proof.
  eexists. eexists. split; [vm_compute; reflexivity |].
  split; [vm_compute; reflexivity |].
  split; [| vm_compute; reflexivity].
  apply (@history_append_only string "html_tailwind" 4333
           sample_extractHistoryTree sample_html2canvas sample_toDataURL
           _ _ (WsOnSetCode 0 "<p>v1</p>")).
  - apply (@sample_world_reachable sample_update_started). vm_compute. reflexivity.
  - vm_compute. reflexivity.
Defined.

Lemma reachable_onSetCode_has_parent_witness :
  exists w g,
    sample_steps sample_update_started sample_initialWorld = Some w
    /\ nth_error (generations (log w)) 0 = Some g
    /\ effects_of (onSetCode g "<p>v1</p>" (store w)) = []
    /\ currentVersion (store_of (onSetCode g "<p>v1</p>" (store w)))
       = Some (arr_length (appHistory (store_of (onSetCode g "<p>v1</p>" (store w)))) - 1).
Proof.
  eexists. eexists. split; [vm_compute; reflexivity |].
  split; [vm_compute; reflexivity |].
  match goal with
  | |- effects_of (onSetCode ?g ?c (store ?w)) = [] /\ _ =>
      assert (Hr : sample_reachable w)
        by (apply (@sample_world_reachable sample_update_started);
            vm_compute; reflexivity);
      assert (Hn : nth_error (generations (log w)) 0 = Some g)
        by (vm_compute; reflexivity);
      destruct (@reachable_onSetCode_has_parent string "html_tailwind" 4333
                  sample_extractHistoryTree sample_html2canvas sample_toDataURL
                  w 0%nat g (store w) c Hr Hn)
        as (_ & He & _ & Hc & _)
  end.
  split; [exact He | exact Hc].
Defined.

Lemma reachable_onCancel_safe_witness :
  exists w g,
    sample_steps sample_update_started sample_initialWorld = Some w
    /\ nth_error (generations (log w)) 0 = Some g
    /\ result_of (onCancel g (store w)) = Returned tt.
Proof.
  eexists. eexists. split; [vm_compute; reflexivity |].
  split; [vm_compute; reflexivity |].
  match goal with
  | |- result_of (onCancel ?g (store ?w)) = _ =>
      assert (Hr : sample_reachable w)
        by (apply (@sample_world_reachable sample_update_started);
            vm_compute; reflexivity);
      assert (Hn : nth_error (generations (log w)) 0 = Some g)
        by (vm_compute; reflexivity);
      exact (proj1 (@reachable_onCancel_safe string "html_tailwind" 4333
                      sample_extractHistoryTree sample_html2canvas sample_toDataURL
                      w 0%nat g (store w) Hr Hn))
  end.
Defined.

Lemma create_round_installs_root_witness :
  exists g,
    appState (store sample_initialWorld) = INITIAL
    /\ In g (generations
               (effects_of
                  (sample_exec None
                     (doCreate (store sample_initialWorld) ["data:image/png;base64,AA"])
                     (store sample_initialWorld))))
    /\ appHistory (store_of (onSetCode g "<p>v0</p>" (store sample_initialWorld)))
       = [ai_create_item "<p>v0</p>" None].
Proof.
  eexists. split; [reflexivity |]. split; [left; vm_compute; reflexivity |].
  match goal with
  | |- appHistory (store_of (onSetCode ?g ?c ?now)) = _ =>
      assert (Hin : In g (generations
               (effects_of
                  (sample_exec None
                     (doCreate (store sample_initialWorld) ["data:image/png;base64,AA"])
                     (store sample_initialWorld)))))
        by (left; vm_compute; reflexivity);
      destruct (@create_round_installs_root string "html_tailwind" 4333
                  sample_extractHistoryTree sample_html2canvas sample_toDataURL
                  sample_initialWorld ["data:image/png;base64,AA"] None g now c
                  (reachable_init _ _ _ _ _) eq_refl Hin)
        as (_ & _ & Hh & _)
  end.
  exact Hh.
Defined.

Lemma revert_then_update_branches_witness :
  let s := store_of (onSetCode
                       (update_generation sample_store 0 ["<p>v0</p>"] None None)
                       "<p>v1</p>" sample_store) in
  let s1 := store_of (revertToVersion s 0 s) in
  arr_get (appHistory s) 0 = Some (code_create_item "<p>v0</p>")
  /\ sample_extractHistoryTree (appHistory s) 0 = Some ["<p>v0</p>"]
  /\ exists g,
       generations (effects_of (sample_exec None (sample_doUpdate s1 None) s1)) = [g]
       /\ parentVersion g = Some 0
       /\ appHistory
            (store_of (onSetCode g "<p>v2</p>"
                         (store_of (sample_exec None (sample_doUpdate s1 None) s1))))
          = appHistory s ++ [ai_edit_item 0 "<p>v2</p>" (updateInstruction s)].
Proof.
  intros s s1. split; [reflexivity |]. split; [reflexivity |].
  destruct (@revert_then_update_branches string sample_extractHistoryTree
              sample_html2canvas sample_toDataURL s 0
              (code_create_item "<p>v0</p>") ["<p>v0</p>"] None None "<p>v2</p>"
              eq_refl eq_refl eq_refl)
    as (g & Hg & Hp & Hh & _).
  exists g. split; [exact Hg | split; [exact Hp | exact Hh]].
Defined.

Lemma streaming_starts_empty_witness :
  currentVersion sample_store = Some 0
  /\ sample_extractHistoryTree (appHistory sample_store) 0 = Some ["<p>v0</p>"]
  /\ generatedCode
       (store_of (onChanges ["<p>"; "v1"; "</p>"]
                    (store_of (sample_exec None (sample_doUpdate sample_store None)
                                           sample_store))))
     = "<p>v1</p>".
Proof.
  split; [reflexivity |]. split; [reflexivity |].
  exact (proj2 (@streaming_starts_empty string sample_extractHistoryTree
                  sample_html2canvas sample_toDataURL sample_store sample_store
                  [] ["<p>"; "v1"; "</p>"] None None)
           0 ["<p>v0</p>"] eq_refl eq_refl eq_refl).
Defined.

Lemma import_then_update_request_witness :
  sample_extractHistoryTree [code_create_item "<p>v0</p>"] 0 = Some ["<p>v0</p>"]
  /\ exists g,
       generations
         (effects_of (sample_exec None (sample_doUpdate sample_store None)
                                  sample_store)) = [g]
       /\ types.isImportedFromCode (params (request g)) = Some true
       /\ generatedCodeConfig (settings_of (request g)) = "html_tailwind"
       /\ history (params (request g)) = Some ["<p>v0</p>"; "make it blue"].
Proof.
  split; [reflexivity |].
  destruct (@import_then_update_request string sample_extractHistoryTree
              sample_html2canvas sample_toDataURL sample_initialState
              "<p>v0</p>" "make it blue" "html_tailwind" None None ["<p>v0</p>"]
              eq_refl eq_refl)
    as (g & Hg & _ & _ & Hi & Hc & Hh).
  exists g. repeat split; assumption.
Defined.

Lemma cancel_after_streaming_restores_version_witness :
  exists w,
    sample_steps [SubmitCode "<p>v0</p>" "html_tailwind";
                  TypeInstruction "make it blue"] sample_initialWorld = Some w
    /\ currentVersion (store w) = Some 0
    /\ exists it,
         arr_get (appHistory (store w)) 0 = Some it
         /\ generatedCode
              (store_of
                 (cancelCodeGeneration 4333
                    (store_of (onChanges ["<p>"; "v1"]
                                 (store_of (sample_exec None
                                              (sample_doUpdate (store w) None)
                                              (store w)))))
                    (store_of (onChanges ["<p>"; "v1"]
                                 (store_of (sample_exec None
                                              (sample_doUpdate (store w) None)
                                              (store w)))))))
            = code it.
Proof.
  eexists. split; [vm_compute; reflexivity |]. split; [vm_compute; reflexivity |].
  match goal with
  | |- exists it, arr_get (appHistory (store ?w)) 0 = Some it /\ _ =>
      assert (Hr : sample_reachable w)
        by (apply (@sample_world_reachable
                     [SubmitCode "<p>v0</p>" "html_tailwind";
                      TypeInstruction "make it blue"]);
            vm_compute; reflexivity);
      assert (Hcv : currentVersion (store w) = Some 0) by (vm_compute; reflexivity);
      assert (Htree : sample_extractHistoryTree (appHistory (store w)) 0
                      = Some ["<p>v0</p>"]) by (vm_compute; reflexivity);
      assert (Hdel : screenshot_delivered sample_html2canvas sample_toDataURL
                       (store w) None = true) by (vm_compute; reflexivity);
      destruct (@cancel_after_streaming_restores_version string "html_tailwind"
                  4333 sample_extractHistoryTree sample_html2canvas sample_toDataURL
                  w None None ["<p>"; "v1"] 0 ["<p>v0</p>"] Hr Hcv Htree Hdel)
        as (it & Hit & _ & Hc & _)
  end.
  exists it. split; [exact Hit | exact Hc].
Defined.

Lemma appContainer_single_flight_witness :
  exists st,
    AppContainer.steps
      [AppContainer.RunInit; AppContainer.RunInit;
       AppContainer.FetchResolved {| AppContainer.subscriber_tier := None |};
       AppContainer.RunInit]
      (AppContainer.mount "free") = Some st
    /\ (AppContainer.inFlight st <= 1)%nat
    /\ AppContainer.sent st = 2%nat.
Proof.
  eexists. split; [reflexivity |]. split; [| reflexivity].
  match goal with
  | |- (AppContainer.inFlight ?st <= 1)%nat =>
      exact (proj1 (@appContainer_single_flight "free"
                      [AppContainer.RunInit; AppContainer.RunInit;
                       AppContainer.FetchResolved
                         {| AppContainer.subscriber_tier := None |};
                       AppContainer.RunInit] st eq_refl))
  end.
Defined.

Lemma appContainer_rejection_wedges_witness :
  exists st1 st2 st3,
    AppContainer.steps [AppContainer.RunInit] (AppContainer.mount "free") = Some st1
    /\ AppContainer.step AppContainer.FetchRejected st1 = Some st2
    /\ AppContainer.steps [AppContainer.RunInit; AppContainer.RunInit] st2 = Some st3
    /\ AppContainer.sent st3 = AppContainer.sent st2
    /\ AppContainer.sent st3 = 1%nat.
Proof.
  eexists. eexists. eexists.
  split; [reflexivity |]. split; [reflexivity |]. split; [reflexivity |].
  split; [| reflexivity].
  match goal with
  | |- AppContainer.sent ?st3 = AppContainer.sent ?st2 =>
      exact (proj1 (@appContainer_rejection_wedges "free" [AppContainer.RunInit]
                      [AppContainer.RunInit; AppContainer.RunInit]
                      _ st2 st3 eq_refl eq_refl eq_refl))
  end.
Defined.

Lemma appContainer_popup_never_closes_witness :
  exists st,
    AppContainer.steps
      [AppContainer.AuthChanged None false;
       AppContainer.AuthChanged (Some false) true;
       AppContainer.AuthChanged (Some true) true]
      (AppContainer.mount "free") = Some st
    /\ AppContainer.showPopup st = true.
Proof.
  eexists. split; [reflexivity |].
  match goal with
  | |- AppContainer.showPopup ?st = true =>
      exact (@appContainer_popup_never_closes
               [AppContainer.AuthChanged None false;
                AppContainer.AuthChanged (Some false) true;
                AppContainer.AuthChanged (Some true) true]
               (AppContainer.mount "free") st eq_refl)
  end.
Defined.

Lemma appContainer_tier_never_empty_witness :
  exists st,
    "pro" <> ""
    /\ AppContainer.steps
         [AppContainer.RunInit;
          AppContainer.FetchResolved {| AppContainer.subscriber_tier := Some "" |}]
         (AppContainer.mount "pro") = Some st
    /\ AppContainer.subscriberTier st <> ""
    /\ AppContainer.subscriberTier st = "free".
Proof.
  eexists. split; [discriminate |]. split; [reflexivity |]. split; [| reflexivity].
  match goal with
  | |- AppContainer.subscriberTier ?st <> "" =>
      exact (proj1 (@appContainer_tier_never_empty "pro"
                      [AppContainer.RunInit;
                       AppContainer.FetchResolved
                         {| AppContainer.subscriber_tier := Some "" |}]
                      st ltac:(discriminate) eq_refl))
  end.
Defined.

Lemma request_keeps_settings_of_click_witness :
  exists w' g,
    appState (store sample_initialWorld) = INITIAL
    /\ sample_steps
         [SubmitImages ["data:image/png;base64,AA"];
          SaveSettings
            {| openAiApiKey := Some "sk-new"; openAiBaseURL := None;
               screenshotOneApiKey := None; isImageGenerationEnabled := false;
               editorTheme := ESPRESSO; generatedCodeConfig := "react_tailwind";
               isTermOfServiceAccepted := true; accessCode := None |};
          GetTokenSettled 0 (Some "")] sample_initialWorld = Some w'
    /\ log w' = [GenerateCode g]
    /\ openAiApiKey (settings (store w')) = Some "sk-new"
    /\ settings_of (request g) = settings (store sample_initialWorld)
    /\ authToken (params (request g)) = None.
Proof.
  destruct (@request_keeps_settings_of_click string 4333 sample_extractHistoryTree
              sample_html2canvas sample_toDataURL sample_initialWorld
              "data:image/png;base64,AA" []
              {| openAiApiKey := Some "sk-new"; openAiBaseURL := None;
                 screenshotOneApiKey := None; isImageGenerationEnabled := false;
                 editorTheme := ESPRESSO; generatedCodeConfig := "react_tailwind";
                 isTermOfServiceAccepted := true; accessCode := None |}
              (Some "") eq_refl)
    as (w' & g & Hs & Hl & _ & Hst & _ & _ & _ & _ & Hreq & _ & _ & Htok & _).
  exists w', g. split; [reflexivity |]. split; [exact Hs |].
  split; [exact Hl |]. split; [rewrite Hst; reflexivity |].
  split; [exact Hreq | exact Htok].
Defined.
